(** * leagueshots: the shot-map filter cascade of [app.py]

    A shallow embedding of the Streamlit script [src/app.py]: the per-league
    CSV loader, the merge and [fillna] normalisation, the cascade of
    sidebar filters, and the figure (markers, title, legend) handed to
    [st.pyplot].  A DataFrame is the list of its rows in index order; a
    cell that pandas holds as NaN is [None]. *)

From Stdlib Require Import QArith.QArith_base.
From stdpp Require Import base decidable option list strings sorting pretty.

(** ** Data model *)

(** A row of one league file as [pd.read_csv] returns it. *)
Record CsvRow := {
  csv_team : option string;
  csv_player : option string;
  csv_game : option string;
  csv_situation : option string;
  csv_body_part : option string;
  csv_result : option string;
  csv_location_x : option Q;
  csv_location_y : option Q;
  csv_xg : option Q
}.

(** A row of [combined_shots_df]: the CSV columns plus the [league] column
    that the loader adds. *)
Record Shot := {
  league : string;
  team : option string;
  player : option string;
  game : option string;
  situation : option string;
  body_part : option string;
  result : option string;
  location_x : option Q;
  location_y : option Q;
  xg : option Q
}.

(** A DataFrame: its rows in index order. *)
Abbreviation DataFrame := (list Shot).

(** ** Python and pandas primitives used by the script *)

(** [Series.isin(values)]: NaN is in no list of strings. *)
Definition isin (values : list string) (cell : option string) : Prop :=
  match cell with
  | Some s => s ∈ values
  | None => False
  end.

#[global] Instance isin_dec values cell : Decision (isin values cell).
Proof. destruct cell; simpl; apply _. Defined.

(** [Series.fillna(value)]. *)
Definition fillna (value : string) (cell : option string) : option string :=
  match cell with
  | Some s => Some s
  | None => Some value
  end.

(** [Series.unique()]: the distinct values in order of first appearance. *)
Fixpoint unique_from {A} `{EqDecision A} (seen : list A) (l : list A) : list A :=
  match l with
  | [] => []
  | x :: l' =>
      if decide (x ∈ seen) then unique_from seen l'
      else x :: unique_from (x :: seen) l'
  end.

Definition unique {A} `{EqDecision A} (l : list A) : list A := unique_from [] l.

(** The distinct strings of a categorical column ([None] cells, which
    [fillna] has removed, carry no string). *)
Definition unique_strings (column : Shot → option string) (df : DataFrame)
  : list string :=
  omap id (unique (column <$> df)).

(** [sorted(...)] on strings: ascending code-point order. *)
Definition sorted (l : list string) : list string := merge_sort String.le l.

(** [list.index(x)]: position of the first occurrence, [None] for the
    [ValueError] raised when [x] is not in the list. *)
Fixpoint index (x : string) (l : list string) : option nat :=
  match l with
  | [] => None
  | y :: l' => if decide (y = x) then Some 0 else S <$> index x l'
  end.

(** [sep.join(parts)]. *)
Definition join (sep : string) (parts : list string) : string :=
  String.concat sep parts.

(** A dict literal or dict built by assignment, in insertion order. *)
Abbreviation dict V := (list (string * V)).

Fixpoint dict_set {V} (k : string) (v : V) (d : dict V) : dict V :=
  match d with
  | [] => [(k, v)]
  | (k', v') :: d' =>
      if decide (k' = k) then (k, v) :: d' else (k', v') :: dict_set k v d'
  end.

Fixpoint dict_lookup {V} (k : string) (d : dict V) : option V :=
  match d with
  | [] => None
  | (k', v) :: d' => if decide (k' = k) then Some v else dict_lookup k d'
  end.

(** [d.get(k, default)]. *)
Definition dict_get {V} (k : string) (default : V) (d : dict V) : V :=
  match dict_lookup k d with
  | Some v => v
  | None => default
  end.

Definition dict_keys {V} (d : dict V) : list string := fst <$> d.
Definition dict_values {V} (d : dict V) : list V := snd <$> d.

(** ** Loading (lines 10-28) *)

Definition LEAGUE_FILES : dict string :=
  [ ("ENG-Premier League", "epl_shots.csv");
    ("ESP-La Liga", "laliga_shots.csv");
    ("FRA-Ligue 1", "fra_shots.csv");
    ("GER-Bundesliga", "ger_shots.csv");
    ("ITA-Serie A", "ita_shots.csv") ].

(** The directory the script runs in: [None] is the [FileNotFoundError] of
    [pd.read_csv]. *)
Definition FileSystem := string → option (list CsvRow).

(** [df['league'] = league] on one row. *)
Definition with_league (lg : string) (r : CsvRow) : Shot :=
  {| league := lg;
     team := csv_team r; player := csv_player r; game := csv_game r;
     situation := csv_situation r; body_part := csv_body_part r;
     result := csv_result r;
     location_x := csv_location_x r; location_y := csv_location_y r;
     xg := csv_xg r |}.

(** The loading loop over [LEAGUE_FILES.items()].  [inr file_path] is the
    [except FileNotFoundError] branch, which reports [file_path] and stops
    the script. *)
Fixpoint load_leagues (fs : FileSystem) (files : dict string)
    (all_shots_data : dict DataFrame) : dict DataFrame + string :=
  match files with
  | [] => inl all_shots_data
  | (lg, file_path) :: rest =>
      match fs file_path with
      | Some df =>
          load_leagues fs rest (dict_set lg (with_league lg <$> df) all_shots_data)
      | None => inr file_path
      end
  end.

Definition load_all (fs : FileSystem) : dict DataFrame + string :=
  load_leagues fs LEAGUE_FILES [].

Definition missing_file_message (file_path : string) : string :=
  "Error: '" +:+ file_path +:+
  "' not found. Please make sure the data file is in the same directory.".

(** ** Merge and normalisation (lines 31-39) *)

(** [pd.concat(all_shots_data.values(), ignore_index=True)]. *)
Definition pd_concat (all_shots_data : dict DataFrame) : DataFrame :=
  concat (dict_values all_shots_data).

Definition fill_unknown (r : Shot) : Shot :=
  {| league := league r;
     team := fillna "Unknown" (team r);
     player := fillna "Unknown" (player r);
     game := fillna "Unknown" (game r);
     situation := fillna "Unknown" (situation r);
     body_part := fillna "Unknown" (body_part r);
     result := fillna "Unknown" (result r);
     location_x := location_x r; location_y := location_y r; xg := xg r |}.

Definition combined_shots_df (all_shots_data : dict DataFrame) : DataFrame :=
  fill_unknown <$> pd_concat all_shots_data.

(** ** Sidebar widgets *)

(** What the user did with each widget in this rerun; [None] is a widget
    left untouched, which then returns its default. *)
Record UserInput := {
  pick_league : option string;
  pick_teams : option (list string);
  pick_players : option (list string);
  pick_games : option (list string);
  pick_situations : option (list string);
  pick_body_parts : option (list string);
  pick_results : option (list string)
}.

(** [st.selectbox(label, options, index=i)]: the user's choice, else the
    option at [i]. *)
Definition selectbox (options : list string) (i : nat) (pick : option string)
  : string :=
  match pick with
  | Some choice => choice
  | None => default "" (options !! i)
  end.

(** [st.multiselect(label, options, default=d)]; without [default=] the
    default is the empty list. *)
Definition multiselect (d : list string) (pick : option (list string))
  : list string :=
  match pick with
  | Some choices => choices
  | None => d
  end.

(** The values the seven widgets return. *)
Record Selections := {
  selected_league : string;
  selected_teams : list string;
  selected_players : list string;
  selected_games : list string;
  selected_situations : list string;
  selected_body_parts : list string;
  selected_results : list string
}.

(** Line 48. *)
Definition leagues (df : DataFrame) : list string :=
  sorted (unique (league <$> df)).

(** The [index=] argument of line 49; [None] is the [ValueError] of
    [leagues.index]. *)
Definition default_league_index (df : DataFrame) : option nat :=
  index "ENG-Premier League" (leagues df).

(** The league the select box returns before the user touches it. *)
Definition default_selected_league (df : DataFrame) : option string :=
  i ← default_league_index df; Some (selectbox (leagues df) i None).

(** ** The filter cascade (lines 52-107) *)

(** Line 52. *)
Definition filtered_by_league (df : DataFrame) (lg : string) : DataFrame :=
  filter (λ r, league r = lg) df.

(** Lines 62-65. *)
Definition filtered_by_teams (by_league : DataFrame) (teams : list string)
  : DataFrame :=
  if decide ("All" ∈ teams) then by_league
  else filter (λ r, isin teams (team r)) by_league.

(** One of the five blocks of lines 91-104:
    [if selected: df = df[df[column].isin(selected)]]. *)
Definition narrow (column : Shot → option string) (selected : list string)
    (df : DataFrame) : DataFrame :=
  match selected with
  | [] => df
  | _ :: _ => filter (λ r, isin selected (column r)) df
  end.

(** [notna] on the four columns of [dropna(subset=[...])]. *)
Definition plottable (r : Shot) : Prop :=
  is_Some (location_x r) ∧ is_Some (location_y r) ∧
  is_Some (xg r) ∧ is_Some (result r).

#[global] Instance plottable_dec r : Decision (plottable r).
Proof. unfold plottable; apply _. Defined.

(** Line 107. *)
Definition dropna (df : DataFrame) : DataFrame := filter plottable df.

(** [filtered_shots] as lines 89-104 leave it, before the [dropna]. *)
Definition unvalidated_shots (df : DataFrame) (sel : Selections) : DataFrame :=
  let by_league := filtered_by_league df (selected_league sel) in
  let by_teams := filtered_by_teams by_league (selected_teams sel) in
  let shots := narrow player (selected_players sel) by_teams in
  let shots := narrow game (selected_games sel) shots in
  let shots := narrow situation (selected_situations sel) shots in
  let shots := narrow body_part (selected_body_parts sel) shots in
  narrow result (selected_results sel) shots.

(** [filtered_shots] after line 107, as counted and drawn. *)
Definition filtered_shots (df : DataFrame) (sel : Selections) : DataFrame :=
  dropna (unvalidated_shots df sel).

(** The eight narrowing steps by name, in the order the script applies
    them. *)
Inductive Stage :=
| LeagueStage
| TeamStage
| PlayerStage
| MatchStage
| SituationStage
| BodyPartStage
| ResultStage
| ValidityStage.

#[global] Instance Stage_eq_dec : EqDecision Stage.
Proof. solve_decision. Defined.

Definition stage_order : list Stage :=
  [LeagueStage; TeamStage; PlayerStage; MatchStage; SituationStage;
   BodyPartStage; ResultStage; ValidityStage].

(** What one stage does to the rows it is given. *)
Definition apply_stage (sel : Selections) (st : Stage) (rows : DataFrame)
  : DataFrame :=
  match st with
  | LeagueStage => filtered_by_league rows (selected_league sel)
  | TeamStage => filtered_by_teams rows (selected_teams sel)
  | PlayerStage => narrow player (selected_players sel) rows
  | MatchStage => narrow game (selected_games sel) rows
  | SituationStage => narrow situation (selected_situations sel) rows
  | BodyPartStage => narrow body_part (selected_body_parts sel) rows
  | ResultStage => narrow result (selected_results sel) rows
  | ValidityStage => dropna rows
  end.

(** The multiselect a stage reads; the league stage reads a select box and
    the validity pass reads nothing. *)
Definition stage_selection (sel : Selections) (st : Stage)
  : option (list string) :=
  match st with
  | LeagueStage | ValidityStage => None
  | TeamStage => Some (selected_teams sel)
  | PlayerStage => Some (selected_players sel)
  | MatchStage => Some (selected_games sel)
  | SituationStage => Some (selected_situations sel)
  | BodyPartStage => Some (selected_body_parts sel)
  | ResultStage => Some (selected_results sel)
  end.

(** The rows left after the given stages, applied first to last. *)
Definition run_stages (sel : Selections) (stages : list Stage)
    (df : DataFrame) : DataFrame :=
  foldl (λ rows st, apply_stage sel st rows) df stages.

(** ** The figure (lines 118-169) *)

Definition result_colors : dict string :=
  [ ("Goal", "yellow");
    ("Missed Shot", "red");
    ("Blocked Shot", "gray");
    ("Saved Shot", "blue");
    ("Shot On Post", "orange");
    ("Unknown", "purple") ].

(** One scatter point; [color = None] is the NaN that [Series.map] gives a
    value that is not a key of the dict. *)
Record Marker := {
  marker_x : option Q;
  marker_y : option Q;
  marker_s : option Q;
  marker_color : option string
}.

(** [Series.map(result_colors)] on one cell. *)
Definition map_colors (cell : option string) : option string :=
  s ← cell; dict_lookup s result_colors.

Definition scale (k : Z) (cell : option Q) : option Q :=
  (λ v, Qmult v (inject_Z k)) <$> cell.

(** Lines 136-140. *)
Definition marker_of (r : Shot) : Marker :=
  {| marker_x := scale 120 (location_x r);
     marker_y := scale 80 (location_y r);
     marker_s := scale 1500 (xg r);
     marker_color := map_colors (result r) |}.

Definition scatter (shots : DataFrame) : list Marker := marker_of <$> shots.

(** Lines 143-156. *)
Definition title_parts (sel : Selections) : list string :=
  ["Shot Map"; "for " +:+ selected_league sel]
  ++ (if decide (selected_teams sel ≠ [] ∧ "All" ∉ selected_teams sel)
      then ["(" +:+ join ", " (selected_teams sel) +:+ ")"] else [])
  ++ (if decide (selected_players sel ≠ [])
      then ["by " +:+ join ", " (selected_players sel)] else [])
  ++ (if decide (selected_games sel ≠ [])
      then ["in " +:+ join ", " (selected_games sel)] else [])
  ++ (if decide (selected_situations sel ≠ [])
      then ["from " +:+ join ", " (selected_situations sel)] else [])
  ++ (if decide (selected_body_parts sel ≠ [])
      then ["with " +:+ join ", " (selected_body_parts sel)] else [])
  ++ (if decide (selected_results sel ≠ [])
      then ["(" +:+ join ", " (selected_results sel) +:+ ")"] else []).

Record LegendHandle := {
  label : string;
  markerfacecolor : string
}.

(** Line 163. *)
Definition present_results (shots : DataFrame) : list string :=
  unique_strings result shots.

(** Lines 164-166: the comprehension ranges over the keys of
    [result_colors]. *)
Definition handles (shots : DataFrame) : list LegendHandle :=
  (λ res, {| label := res;
             markerfacecolor := dict_get res "black" result_colors |})
  <$> filter (λ res, res ∈ present_results shots) (dict_keys result_colors).

Record Figure := {
  fig_markers : list Marker;
  fig_title : string;
  fig_legend : list LegendHandle
}.

Definition draw (shots : DataFrame) (sel : Selections) : Figure :=
  {| fig_markers := scatter shots;
     fig_title := join " " (title_parts sel);
     fig_legend := handles shots |}.

(** ** The script as a whole *)

(** What the page shows, in the order the script emits it. *)
Inductive UiEvent :=
| StError (msg : string)
| StSetPageConfig (layout : string)
| StSidebarHeader (text : string)
| StSelectbox (lbl : string) (options : list string) (i : nat)
| StMultiselect (lbl : string) (options : list string) (d : list string)
| StSidebarSubheader (text : string)
| StSidebarInfo (text : string)
| StWrite (text : string)
| StPyplot (fig : Figure).

(** How a rerun of the script ends. *)
Inductive Ending :=
| Finished
| Stopped
| Raised (exn : string).

Record Run := {
  shown : list UiEvent;
  ending : Ending
}.

(** The values of the widgets of lines 49-85, given the index of the
    default league. *)
Definition selections (df : DataFrame) (i : nat) (ui : UserInput)
  : Selections :=
  {| selected_league := selectbox (leagues df) i (pick_league ui);
     selected_teams := multiselect ["All"] (pick_teams ui);
     selected_players := multiselect [] (pick_players ui);
     selected_games := multiselect [] (pick_games ui);
     selected_situations := multiselect [] (pick_situations ui);
     selected_body_parts := multiselect [] (pick_body_parts ui);
     selected_results := multiselect [] (pick_results ui) |}.

(** Line 111. *)
Definition total_shots_text (n : nat) : string :=
  "Number of shots: " +:+ pretty n.

(** The calls of lines 119-170 into mplsoccer, matplotlib and [st.pyplot]
    are outside the script.  A [DrawingLibrary] says, for a figure, whether
    one of them raises for a reason of its own (a marker size it cannot
    draw, a failure inside [st.pyplot], ...): [Some exn] is the exception,
    [None] is a library with no complaint of its own. *)
Definition DrawingLibrary := Figure → option string.

(** The [color] argument that [pitch.scatter] accepts: a sequence without
    a NaN in it. *)
Definition colors_valid (markers : list Marker) : Prop :=
  Forall (λ m, is_Some (marker_color m)) markers.

#[global] Instance colors_valid_dec markers : Decision (colors_valid markers).
Proof. unfold colors_valid; apply _. Defined.

(** What lines 119-170 come to for a figure: [None] when the figure is
    drawn and handed to [st.pyplot], [Some exn] when a call raises.  A NaN
    in the colour sequence makes [pitch.scatter] raise [ValueError] on
    line 136, before the title and the legend are built. *)
Definition draw_outcome (lib : DrawingLibrary) (fig : Figure)
  : option string :=
  match lib fig with
  | Some exn => Some exn
  | None =>
      if decide (colors_valid (fig_markers fig)) then None
      else Some "ValueError"
  end.

(** Lines 43-111: the page configuration and the sidebar. *)
Definition sidebar (df : DataFrame) (i : nat) (sel : Selections)
  : list UiEvent :=
  let by_league := filtered_by_league df (selected_league sel) in
  let teams_with_all := "All" :: sorted (unique_strings team by_league) in
  let by_teams := filtered_by_teams by_league (selected_teams sel) in
  [ StSetPageConfig "wide";
    StSidebarHeader "Filter Options";
    StSelectbox "Select League" (leagues df) i;
    StMultiselect "Select Team(s)" teams_with_all ["All"];
    StMultiselect "Select Player(s)"
      (sorted (unique_strings player by_teams)) [];
    StMultiselect "Select Match(es)"
      (sorted (unique_strings game by_teams)) [];
    StMultiselect "Select Situation(s)"
      (sorted (unique_strings situation by_teams)) [];
    StMultiselect "Select Body Part(s)"
      (sorted (unique_strings body_part by_teams)) [];
    StMultiselect "Select Result(s)"
      (sorted (unique_strings result by_teams)) [];
    StSidebarSubheader "Total Shots";
    StSidebarInfo (total_shots_text (length (filtered_shots df sel))) ].

(** Lines 43-170, on the combined and normalised data.  An exception ends
    the rerun where it is raised: what was shown before it stays, and
    nothing after it is shown. *)
Definition page (lib : DrawingLibrary) (df : DataFrame) (ui : UserInput)
  : Run :=
  match default_league_index df with
  | None =>
      {| shown := [StSetPageConfig "wide"; StSidebarHeader "Filter Options"];
         ending := Raised "ValueError" |}
  | Some i =>
      let sel := selections df i ui in
      let shots := filtered_shots df sel in
      match shots with
      | [] =>
          {| shown := sidebar df i sel
                      ++ [StWrite "No shots match the selected filters."];
             ending := Finished |}
      | _ :: _ =>
          match draw_outcome lib (draw shots sel) with
          | None =>
              {| shown := sidebar df i sel ++ [StPyplot (draw shots sel)];
                 ending := Finished |}
          | Some exn =>
              {| shown := sidebar df i sel; ending := Raised exn |}
          end
      end
  end.

(** Lines 19-170: load, merge, normalise, then the page. *)
Definition app (lib : DrawingLibrary) (fs : FileSystem) (ui : UserInput)
  : Run :=
  match load_all fs with
  | inr file_path =>
      {| shown := [StError (missing_file_message file_path)];
         ending := Stopped |}
  | inl all_shots_data => page lib (combined_shots_df all_shots_data) ui
  end.

(** ** Sample inputs *)

Definition csv_shot (tm pl res : string) (x y g : option Q) : CsvRow :=
  {| csv_team := Some tm; csv_player := Some pl;
     csv_game := Some "2023-08-12 Arsenal-Nottingham Forest";
     csv_situation := Some "Open Play"; csv_body_part := Some "Right Foot";
     csv_result := Some res;
     csv_location_x := x; csv_location_y := y; csv_xg := g |}.

Definition saka_goal : CsvRow :=
  csv_shot "Arsenal" "Bukayo Saka" "Goal" (Some (9 # 10)) (Some (1 # 2)) (Some (3 # 10)).

Definition worrall_own_goal : CsvRow :=
  csv_shot "Nottingham Forest" "Joe Worrall" "Own Goal"
    (Some (1 # 20)) (Some (1 # 2)) (Some (1 # 10)).

(** A shot whose [xg] cell is empty in the file. *)
Definition saka_unrated : CsvRow :=
  csv_shot "Arsenal" "Bukayo Saka" "Saved Shot" (Some (4 # 5)) (Some (2 # 5)) None.

Definition pedri_miss : CsvRow :=
  csv_shot "Barcelona" "Pedri" "Missed Shot" (Some (17 # 20)) (Some (3 # 5)) (Some (1 # 25)).

(** All five files present. *)
Definition fs_all (file_path : string) : option (list CsvRow) :=
  if decide (file_path = "epl_shots.csv")
  then Some [saka_goal; worrall_own_goal; saka_unrated]
  else if decide (file_path = "laliga_shots.csv") then Some [pedri_miss]
  else if decide (file_path ∈ dict_values LEAGUE_FILES) then Some []
  else None.

(** [ger_shots.csv] is not in the directory. *)
Definition fs_without_ger (file_path : string) : option (list CsvRow) :=
  if decide (file_path = "ger_shots.csv") then None else fs_all file_path.

(** Every file is present, and [epl_shots.csv] has a header and no rows. *)
Definition fs_empty_epl (file_path : string) : option (list CsvRow) :=
  if decide (file_path = "epl_shots.csv") then Some [] else fs_all file_path.

(** Drawing libraries that raise nothing of their own. *)
Definition quiet_library : DrawingLibrary := λ _, None.

(** A rerun in which no widget was touched. *)
Definition untouched : UserInput :=
  {| pick_league := None; pick_teams := None; pick_players := None;
     pick_games := None; pick_situations := None; pick_body_parts := None;
     pick_results := None |}.

(** The user has removed "All" from the team multiselect. *)
Definition teams_cleared : UserInput :=
  {| pick_league := None; pick_teams := Some []; pick_players := None;
     pick_games := None; pick_situations := None; pick_body_parts := None;
     pick_results := None |}.

(** The combined table that [fs_all] loads into. *)
Definition sample_df : DataFrame :=
  fill_unknown <$>
    ((with_league "ENG-Premier League" <$>
        [saka_goal; worrall_own_goal; saka_unrated])
     ++ (with_league "ESP-La Liga" <$> [pedri_miss])).

(** The combined table that [fs_empty_epl] loads into. *)
Definition la_liga_only_df : DataFrame :=
  fill_unknown <$> (with_league "ESP-La Liga" <$> [pedri_miss]).

(** ** The default league in the words of the specification *)

(** The canonical league when it is available, otherwise the
    alphabetically first available league. *)
Definition spec_default_league (available : list string) : option string :=
  if decide ("ENG-Premier League" ∈ available) then Some "ENG-Premier League"
  else head (sorted available).

(** ** Vocabulary for the properties *)

(** No cell of the six filter columns is NaN. *)
Definition categorical_complete (r : Shot) : Prop :=
  is_Some (team r) ∧ is_Some (player r) ∧ is_Some (game r) ∧
  is_Some (situation r) ∧ is_Some (body_part r) ∧ is_Some (result r).

(** No cell of the three numeric plotting columns is NaN. *)
Definition numeric_complete (r : Shot) : Prop :=
  is_Some (location_x r) ∧ is_Some (location_y r) ∧ is_Some (xg r).

#[global] Instance numeric_complete_dec r : Decision (numeric_complete r).
Proof. unfold numeric_complete; apply _. Defined.

(** The condition one multiselect of lines 91-104 puts on a cell. *)
Definition passes (selected : list string) (cell : option string) : Prop :=
  selected = [] ∨ isin selected cell.

(** The condition the team stage of lines 62-65 puts on a row. *)
Definition passes_teams (teams : list string) (r : Shot) : Prop :=
  "All" ∈ teams ∨ isin teams (team r).

(** The same rerun with the team multiselect set to [teams]. *)
Definition with_teams (ui : UserInput) (teams : list string) : UserInput :=
  {| pick_league := pick_league ui; pick_teams := Some teams;
     pick_players := pick_players ui; pick_games := pick_games ui;
     pick_situations := pick_situations ui;
     pick_body_parts := pick_body_parts ui;
     pick_results := pick_results ui |}.

(** The user has picked two results that have a colour. *)
Definition goals_and_saves : UserInput :=
  {| pick_league := None; pick_teams := None; pick_players := None;
     pick_games := None; pick_situations := None; pick_body_parts := None;
     pick_results := Some ["Goal"; "Saved Shot"] |}.

(** [epl_shots.csv] and [ger_shots.csv] are both absent. *)
Definition fs_without_epl_ger (file_path : string) : option (list CsvRow) :=
  if decide (file_path = "epl_shots.csv") then None
  else fs_without_ger file_path.

(** The tables [fs_all] loads into, before they are merged. *)
Definition sample_tables : dict DataFrame :=
  [ ("ENG-Premier League",
     with_league "ENG-Premier League" <$>
       [saka_goal; worrall_own_goal; saka_unrated]);
    ("ESP-La Liga", with_league "ESP-La Liga" <$> [pedri_miss]);
    ("FRA-Ligue 1", []); ("GER-Bundesliga", []); ("ITA-Serie A", []) ].

#[global] Instance passes_dec selected cell : Decision (passes selected cell).
Proof. unfold passes; apply _. Defined.

#[global] Instance passes_teams_dec teams r : Decision (passes_teams teams r).
Proof. unfold passes_teams; apply _. Defined.

(** The condition a stage puts on a row. *)
Definition stage_keeps (sel : Selections) (st : Stage) (r : Shot) : Prop :=
  match st with
  | LeagueStage => league r = selected_league sel
  | TeamStage => passes_teams (selected_teams sel) r
  | PlayerStage => passes (selected_players sel) (player r)
  | MatchStage => passes (selected_games sel) (game r)
  | SituationStage => passes (selected_situations sel) (situation r)
  | BodyPartStage => passes (selected_body_parts sel) (body_part r)
  | ResultStage => passes (selected_results sel) (result r)
  | ValidityStage => plottable r
  end.

#[global] Instance stage_keeps_dec sel st r : Decision (stage_keeps sel st r).
Proof. destruct st; simpl; apply _. Defined.

(** * Properties *)

(** ** Facts about the primitives *)

Section primitives.
Context {A : Type} `{EqDecision A}.

Lemma elem_of_unique_from (seen l : list A) (x : A) :
  x ∈ unique_from seen l ↔ x ∈ l ∧ x ∉ seen.
Proof.
  revert seen; induction l as [|y l IH]; intros seen; simpl.
  - split; [by intros ?%elem_of_nil | by intros [?%elem_of_nil _]].
  - destruct (decide (y ∈ seen)) as [Hy|Hy].
    + rewrite IH, elem_of_cons. split; [tauto|].
      intros [[->|Hx] Hseen]; tauto.
    + rewrite !elem_of_cons, IH, elem_of_cons.
      destruct (decide (x = y)) as [->|Hxy]; tauto.
Qed.

Lemma elem_of_unique (l : list A) (x : A) : x ∈ unique l ↔ x ∈ l.
Proof.
  unfold unique. rewrite elem_of_unique_from.
  split; [by intros [? _] | intros ?; split; [done | apply not_elem_of_nil]].
Qed.

Lemma NoDup_unique_from (seen l : list A) : NoDup (unique_from seen l).
Proof.
  revert seen; induction l as [|y l IH]; intros seen; simpl.
  - constructor.
  - destruct (decide (y ∈ seen)); [apply IH|].
    constructor; [|apply IH].
    rewrite elem_of_unique_from, elem_of_cons. tauto.
Qed.

Lemma NoDup_unique (l : list A) : NoDup (unique l).
Proof. apply NoDup_unique_from. Qed.
End primitives.

Lemma elem_of_sorted (l : list string) (x : string) : x ∈ sorted l ↔ x ∈ l.
Proof. unfold sorted. by rewrite merge_sort_Permutation. Qed.

Lemma index_elem_of (x : string) (l : list string) :
  x ∈ l → ∃ i, index x l = Some i ∧ l !! i = Some x.
Proof.
  induction l as [|y l IH]; [by intros ?%elem_of_nil|].
  intros Hx; simpl. destruct (decide (y = x)) as [->|Hne].
  - by exists 0.
  - apply elem_of_cons in Hx as [->|Hx]; [done|].
    destruct (IH Hx) as (i & -> & Hi). by exists (S i).
Qed.

Lemma index_not_elem_of (x : string) (l : list string) :
  x ∉ l → index x l = None.
Proof.
  induction l as [|y l IH]; [done|].
  rewrite not_elem_of_cons; intros [Hne Hx]; simpl.
  destruct (decide (y = x)); [congruence|]. by rewrite IH.
Qed.

Lemma elem_of_unique_strings column (df : DataFrame) (s : string) :
  s ∈ unique_strings column df ↔ ∃ r, r ∈ df ∧ column r = Some s.
Proof.
  unfold unique_strings. rewrite list_elem_of_omap. split.
  - intros (cell & Hcell & Hs); simpl in Hs; subst cell.
    apply elem_of_unique, list_elem_of_fmap in Hcell as (r & ? & ?). eauto.
  - intros (r & Hr & Hs). exists (Some s); split; [|done].
    apply elem_of_unique, list_elem_of_fmap. eauto.
Qed.

Lemma elem_of_leagues (df : DataFrame) (lg : string) :
  lg ∈ leagues df ↔ ∃ r, r ∈ df ∧ league r = lg.
Proof.
  unfold leagues. rewrite elem_of_sorted, elem_of_unique, list_elem_of_fmap.
  split; intros (r & ? & ?); by exists r.
Qed.

(** ** Loading *)

Section loading.
Variable fs : FileSystem.

(** The loop stops at a file that is absent, whatever it has loaded so
    far. *)
Lemma load_leagues_missing (files : dict string) (acc : dict DataFrame) :
  (∃ file_path, file_path ∈ dict_values files ∧ fs file_path = None) →
  ∃ named, named ∈ dict_values files ∧ fs named = None ∧
           load_leagues fs files acc = inr named.
Proof.
  revert acc; induction files as [|[lg f] files IH]; intros acc (p & Hp & Hnone).
  - by apply elem_of_nil in Hp.
  - simpl. destruct (fs f) as [df|] eqn:Hf.
    + apply elem_of_cons in Hp as [->|Hp]; [simpl in *; congruence|].
      destruct (IH (dict_set lg (with_league lg <$> df) acc)) as (n & ? & ? & ?);
        [by eauto|].
      exists n. split_and!; [by apply elem_of_cons; right | done | done].
    + exists f. split_and!; [by apply elem_of_cons; left | done | done].
Qed.

(** With every file present the loop runs to its end. *)
Lemma load_leagues_present (files : dict string) (acc : dict DataFrame) :
  (∀ file_path, file_path ∈ dict_values files → is_Some (fs file_path)) →
  ∃ all_shots_data, load_leagues fs files acc = inl all_shots_data.
Proof.
  revert acc; induction files as [|[lg f] files IH]; intros acc Hall; simpl.
  - by eexists.
  - destruct (Hall f) as [df ->]; [by apply elem_of_cons; left|].
    apply IH. intros p Hp. apply Hall. by apply elem_of_cons; right.
Qed.
End loading.

(** C8. If a configured league file is absent, the run shows exactly one
    thing and stops: the error whose text quotes the name of an absent
    configured file.  No widget, no count and no figure is shown,
    whatever the other files hold.  When the absent file is the only one
    absent, it is the one quoted. *)
Theorem missing_source_aborts (lib : DrawingLibrary) (fs : FileSystem)
    (ui : UserInput) (file_path : string) :
  file_path ∈ dict_values LEAGUE_FILES →
  fs file_path = None →
  ∃ named,
    named ∈ dict_values LEAGUE_FILES ∧ fs named = None ∧
    ((∀ other, other ∈ dict_values LEAGUE_FILES → fs other = None →
               other = file_path) → named = file_path) ∧
    app lib fs ui
    = {| shown :=
           [StError ("Error: '" +:+ named +:+
                     "' not found. Please make sure the data file is in the same directory.")];
         ending := Stopped |}.
Proof.
  intros Hin Hnone.
  destruct (load_leagues_missing fs LEAGUE_FILES []) as (named & Hn & Hfs & Hload);
    [by eauto|].
  exists named. split_and!; [done | done | by intros Honly; apply Honly |].
  unfold app, load_all. by rewrite Hload.
Qed.

Lemma missing_source_aborts_witness :
  ∃ named,
    named ∈ dict_values LEAGUE_FILES ∧ fs_without_ger named = None ∧
    ((∀ other, other ∈ dict_values LEAGUE_FILES → fs_without_ger other = None →
               other = "ger_shots.csv") → named = "ger_shots.csv") ∧
    app quiet_library fs_without_ger untouched
    = {| shown :=
           [StError ("Error: '" +:+ named +:+
                     "' not found. Please make sure the data file is in the same directory.")];
         ending := Stopped |}.
Proof.
  apply (missing_source_aborts quiet_library fs_without_ger untouched
           "ger_shots.csv").
  - apply (bool_decide_unpack _). vm_compute. exact I.
  - reflexivity.
Defined.

(** On the sample directory without [ger_shots.csv] the one thing shown
    is the error that quotes that file. *)
Example missing_ger_text :
  app quiet_library fs_without_ger untouched
  = {| shown :=
         [StError "Error: 'ger_shots.csv' not found. Please make sure the data file is in the same directory."];
       ending := Stopped |}.
Proof. reflexivity. Qed.

Lemma fs_all_loads :
  ∃ data, load_all fs_all = inl data ∧ combined_shots_df data = sample_df.
Proof. eexists; split; reflexivity. Qed.

Lemma fs_empty_epl_loads :
  ∃ data, load_all fs_empty_epl = inl data ∧
          combined_shots_df data = la_liga_only_df.
Proof. eexists; split; reflexivity. Qed.

(** ** The default league *)

Lemma default_league_index_Some (df : DataFrame) :
  "ENG-Premier League" ∈ leagues df →
  ∃ i, default_league_index df = Some i ∧
       leagues df !! i = Some "ENG-Premier League".
Proof. apply index_elem_of. Qed.

Lemma default_league_index_None (df : DataFrame) :
  "ENG-Premier League" ∉ leagues df → default_league_index df = None.
Proof. apply index_not_elem_of. Qed.

(** What the script leaves behind when [leagues.index] raises on line 49:
    the page configuration and the sidebar header, and no widget. *)
Lemma page_without_default (lib : DrawingLibrary) (df : DataFrame)
    (ui : UserInput) :
  page lib df ui
  = {| shown := [StSetPageConfig "wide"; StSidebarHeader "Filter Options"];
       ending := Raised "ValueError" |}
  ↔ "ENG-Premier League" ∉ leagues df.
Proof.
  unfold page.
  destruct (decide ("ENG-Premier League" ∈ leagues df)) as [Hin|Hout].
  - destruct (default_league_index_Some df Hin) as (i & -> & _). simpl.
    split; [|done].
    destruct (filtered_shots df (selections df i ui)); [discriminate|].
    destruct (draw_outcome lib _); discriminate.
  - by rewrite (default_league_index_None df Hout).
Qed.

(** C3, as the script has it.  The select box defaults to
    'ENG-Premier League' when that league has rows in the loaded data.
    When it has none, [leagues.index] raises [ValueError]: there is no
    default, and the rerun ends there, before any widget is shown. *)
Theorem default_league_canonical_or_error (df : DataFrame) :
  default_selected_league df
  = (if decide ("ENG-Premier League" ∈ leagues df)
     then Some "ENG-Premier League" else None)
  ∧ ∀ lib ui,
      page lib df ui
      = {| shown := [StSetPageConfig "wide"; StSidebarHeader "Filter Options"];
           ending := Raised "ValueError" |}
      ↔ "ENG-Premier League" ∉ leagues df.
Proof.
  split; [|intros lib ui; apply page_without_default].
  unfold default_selected_league.
  destruct (decide ("ENG-Premier League" ∈ leagues df)) as [Hin|Hout].
  - destruct (default_league_index_Some df Hin) as (i & -> & Hi).
    simpl. by rewrite Hi.
  - by rewrite (default_league_index_None df Hout).
Qed.

(** C3 fails as stated: with rows for La Liga only, the first league in
    alphabetical order is 'ESP-La Liga', and the script has no default at
    all. *)
Lemma default_league_no_fallback :
  leagues la_liga_only_df = ["ESP-La Liga"] ∧
  spec_default_league (leagues la_liga_only_df) = Some "ESP-La Liga" ∧
  default_selected_league la_liga_only_df = None ∧
  default_selected_league la_liga_only_df
  ≠ spec_default_league (leagues la_liga_only_df) ∧
  ∀ lib,
    app lib fs_empty_epl untouched
    = {| shown := [StSetPageConfig "wide"; StSidebarHeader "Filter Options"];
         ending := Raised "ValueError" |}.
Proof. split_and!; [reflexivity | reflexivity | reflexivity | discriminate | reflexivity]. Qed.

(** ** The filter cascade *)

Section cascade.
Implicit Types (rows df : DataFrame) (sel : Selections) (st : Stage).

Lemma narrow_sublist column selected rows :
  narrow column selected rows `sublist_of` rows.
Proof. destruct selected; simpl; [done | apply sublist_filter]. Qed.

Lemma filtered_by_teams_sublist rows teams :
  filtered_by_teams rows teams `sublist_of` rows.
Proof.
  unfold filtered_by_teams. case_decide; [done | apply sublist_filter].
Qed.

(** Every stage keeps a sub-sequence of the rows it is given. *)
Lemma apply_stage_sublist sel st rows :
  apply_stage sel st rows `sublist_of` rows.
Proof.
  destruct st; simpl;
    first [apply narrow_sublist | apply filtered_by_teams_sublist
          | apply sublist_filter].
Qed.

Lemma run_stages_snoc sel stages st df :
  run_stages sel (stages ++ [st]) df
  = apply_stage sel st (run_stages sel stages df).
Proof. unfold run_stages. by rewrite foldl_app. Qed.

(** The stages in their order are the script's [filtered_shots]. *)
Lemma run_stages_filtered_shots df sel :
  run_stages sel stage_order df = filtered_shots df sel.
Proof. reflexivity. Qed.

Lemma isin_nil cell : ¬ isin [] cell.
Proof. destruct cell; simpl; [apply not_elem_of_nil | tauto]. Qed.
End cascade.

(** C2, as the script has it.  For the player, match, situation, body
    part and result stages an empty selection leaves the rows as they
    are.  The team stage is left out: it has the 'All' choice for that. *)
Theorem empty_selection_is_identity (sel : Selections) (st : Stage)
    (rows : DataFrame) :
  st ≠ TeamStage →
  stage_selection sel st = Some [] →
  apply_stage sel st rows = rows.
Proof.
  intros Hteam Hsel. destruct st; simpl in *; try done;
    injection Hsel as ->; reflexivity.
Qed.

Lemma empty_selection_is_identity_witness :
  apply_stage (selections sample_df 0 untouched) PlayerStage sample_df
  = sample_df.
Proof.
  apply (empty_selection_is_identity (selections sample_df 0 untouched)
           PlayerStage sample_df).
  - discriminate.
  - reflexivity.
Defined.

(** C2 fails as stated at the team stage: with the team multiselect
    emptied, the stage drops every row of the league subset. *)
Lemma empty_team_selection_drops_rows :
  let sel := selections sample_df 0 teams_cleared in
  let by_league := filtered_by_league sample_df (selected_league sel) in
  stage_selection sel TeamStage = Some [] ∧
  length by_league = 3 ∧
  apply_stage sel TeamStage by_league = [] ∧
  apply_stage sel TeamStage by_league ≠ by_league.
Proof. split_and!; [reflexivity | reflexivity | reflexivity | discriminate]. Qed.

(** C5. A team selection that contains 'All' leaves the league subset as
    it is, whichever teams are selected with it. *)
Theorem all_teams_no_restriction (by_league : DataFrame) (teams : list string) :
  "All" ∈ teams → filtered_by_teams by_league teams = by_league.
Proof. intros Hall. unfold filtered_by_teams. by rewrite decide_True. Qed.

Lemma all_teams_no_restriction_witness :
  filtered_by_teams sample_df ["Barcelona"; "All"] = sample_df.
Proof.
  apply (all_teams_no_restriction sample_df ["Barcelona"; "All"]).
  apply (bool_decide_unpack _). vm_compute. exact I.
Defined.

(** C6. Each of the eight stages, taken in the script's order, returns a
    sub-sequence of the rows the stage before it returned, so the row
    count never grows from one stage to the next; the last stage returns
    [filtered_shots]. *)
Theorem cascade_narrows (df : DataFrame) (sel : Selections) :
  run_stages sel stage_order df = filtered_shots df sel ∧
  ∀ k,
    run_stages sel (take (S k) stage_order) df
      `sublist_of` run_stages sel (take k stage_order) df ∧
    length (run_stages sel (take (S k) stage_order) df)
      ≤ length (run_stages sel (take k stage_order) df).
Proof.
  split; [reflexivity|]. intros k.
  assert (run_stages sel (take (S k) stage_order) df
            `sublist_of` run_stages sel (take k stage_order) df) as Hsub.
  { destruct (stage_order !! k) as [st|] eqn:Hk.
    - rewrite (take_S_r _ _ _ Hk), run_stages_snoc. apply apply_stage_sublist.
    - apply lookup_ge_None in Hk. by rewrite !take_ge by lia. }
  split; [done | by apply sublist_length].
Qed.

(** C7. Every row of [filtered_shots] has a value in [location_x],
    [location_y], [xg] and [result], whatever the data and the
    selections. *)
Theorem rendered_rows_complete (df : DataFrame) (sel : Selections) :
  Forall (λ r, is_Some (location_x r) ∧ is_Some (location_y r) ∧
               is_Some (xg r) ∧ is_Some (result r))
         (filtered_shots df sel).
Proof.
  apply Forall_forall. intros r Hr.
  unfold filtered_shots, dropna in Hr.
  by apply list_elem_of_filter in Hr as [Hplot _].
Qed.

(** C9. With an empty team selection the team stage returns no rows. *)
Theorem empty_team_selection_excludes_all (by_league : DataFrame) :
  filtered_by_teams by_league [] = [].
Proof.
  unfold filtered_by_teams. rewrite decide_False by apply not_elem_of_nil.
  induction by_league as [|r rows IH]; [done|].
  rewrite filter_cons_False; [done | apply isin_nil].
Qed.

(** ** The figure *)

Section figure.
Implicit Types (shots : DataFrame) (res : string).

Lemma dict_lookup_None {V} (d : dict V) k :
  k ∉ dict_keys d → dict_lookup k d = None.
Proof.
  induction d as [|[k' v] d IH]; [done|]. simpl.
  rewrite not_elem_of_cons; intros [Hne Hk].
  destruct (decide (k' = k)); [congruence | by apply IH].
Qed.

Lemma dict_lookup_is_Some {V} (d : dict V) k :
  k ∈ dict_keys d → is_Some (dict_lookup k d).
Proof.
  induction d as [|[k' v] d IH]; [by intros ?%elem_of_nil|]. simpl.
  destruct (decide (k' = k)); [by eexists|].
  rewrite elem_of_cons; intros [?|?]; [congruence | by apply IH].
Qed.

(** A marker is coloured exactly when its result is a key of
    [result_colors]; the colour is then the dict's. *)
Lemma marker_color_palette r res :
  result r = Some res →
  marker_color (marker_of r) = dict_lookup res result_colors.
Proof. intros Hres. simpl. unfold map_colors. by rewrite Hres. Qed.

Lemma marker_color_outside_palette r res :
  result r = Some res → res ∉ dict_keys result_colors →
  marker_color (marker_of r) = None.
Proof.
  intros Hres Hout. rewrite (marker_color_palette r res Hres).
  by apply dict_lookup_None.
Qed.

Lemma palette_values :
  map_colors (Some "Goal") = Some "yellow" ∧
  map_colors (Some "Missed Shot") = Some "red" ∧
  map_colors (Some "Blocked Shot") = Some "gray" ∧
  map_colors (Some "Saved Shot") = Some "blue" ∧
  map_colors (Some "Shot On Post") = Some "orange" ∧
  map_colors (Some "Unknown") = Some "purple".
Proof. by split_and!. Qed.

(** The legend labels are the keys of [result_colors], in the dict's
    order, that occur in the [result] column. *)
Lemma handles_labels shots :
  label <$> handles shots
  = filter (λ res, res ∈ present_results shots) (dict_keys result_colors).
Proof.
  unfold handles. rewrite <- list_fmap_compose.
  apply list_fmap_id.
Qed.

Lemma elem_of_handles_labels shots res :
  res ∈ label <$> handles shots ↔
  res ∈ dict_keys result_colors ∧ ∃ r, r ∈ shots ∧ result r = Some res.
Proof.
  rewrite handles_labels, list_elem_of_filter.
  unfold present_results. rewrite elem_of_unique_strings. tauto.
Qed.

Lemma NoDup_handles_labels shots : NoDup (label <$> handles shots).
Proof.
  rewrite handles_labels. apply NoDup_filter.
  apply (bool_decide_unpack _). vm_compute. exact I.
Qed.

(** The default of [result_colors.get(result, 'black')] is never taken:
    every handle carries the colour the dict has for its label. *)
Lemma handles_color_from_dict shots h :
  h ∈ handles shots →
  dict_lookup (label h) result_colors = Some (markerfacecolor h).
Proof.
  unfold handles. intros (res & -> & Hres)%list_elem_of_fmap.
  apply list_elem_of_filter in Hres as [_ Hkey]. simpl.
  unfold dict_get.
  destruct (dict_lookup_is_Some result_colors res Hkey) as [c Hc].
  by rewrite Hc.
Qed.
End figure.

(** ** The page *)

Lemma total_shots_text_inj (n m : nat) :
  total_shots_text n = total_shots_text m → n = m.
Proof.
  unfold total_shots_text. intros Heq.
  apply (inj (String.app _)) in Heq. by apply (inj pretty) in Heq.
Qed.




(** With a NaN among the colours the drawing raises, whatever else the
    libraries do. *)
Lemma draw_outcome_invalid_colors (lib : DrawingLibrary) (fig : Figure) :
  ¬ colors_valid (fig_markers fig) → is_Some (draw_outcome lib fig).
Proof.
  intros Hnan. unfold draw_outcome. destruct (lib fig); [by eexists|].
  rewrite decide_False by done. by eexists.
Qed.

(** What the sidebar holds: the configuration, the header, the seven
    widgets, and the one count. *)
Lemma elem_of_sidebar (df : DataFrame) (i : nat) (sel : Selections)
    (e : UiEvent) :
  e ∈ sidebar df i sel →
  match e with
  | StError _ | StWrite _ | StPyplot _ => False
  | StSidebarInfo text =>
      text = total_shots_text (length (filtered_shots df sel))
  | _ => True
  end.
Proof.
  unfold sidebar. intros He.
  repeat (apply elem_of_cons in He as [->|He]; [done|]).
  by apply elem_of_nil in He.
Qed.

Lemma sidebar_info (df : DataFrame) (i : nat) (sel : Selections) :
  StSidebarInfo (total_shots_text (length (filtered_shots df sel)))
  ∈ sidebar df i sel.
Proof. by apply list_elem_of_lookup_2 with 10. Qed.

(** What a page whose league select box could be built shows: the
    sidebar, and then the no-shots message, or the figure when drawing it
    raised nothing, or nothing more. *)
Lemma elem_of_page_shown (lib : DrawingLibrary) (df : DataFrame)
    (ui : UserInput) (i : nat) (e : UiEvent) :
  default_league_index df = Some i →
  let sel := selections df i ui in
  let shots := filtered_shots df sel in
  e ∈ shown (page lib df ui) ↔
  e ∈ sidebar df i sel ∨
  (shots = [] ∧ e = StWrite "No shots match the selected filters.") ∨
  (shots ≠ [] ∧ draw_outcome lib (draw shots sel) = None ∧
   e = StPyplot (draw shots sel)).
Proof.
  intros Hi sel shots. subst shots. unfold page. rewrite Hi. fold sel.
  destruct (filtered_shots df sel) as [|r rows].
  - cbn [shown]. rewrite elem_of_app, list_elem_of_singleton.
    split; [intros [?|?]; eauto | intros [?|[[_ ?]|[? _]]]; eauto; done].
  - destruct (draw_outcome lib (draw (r :: rows) sel)) as [exn|] eqn:Hdraw;
      cbn [shown].
    + split; [eauto | intros [?|[[? _]|(_ & ? & _)]]; done].
    + rewrite elem_of_app, list_elem_of_singleton.
      split; [intros [?|?]; eauto 6 | intros [?|[[? _]|(_ & _ & ?)]]; eauto; done].
Qed.

Lemma page_ending (lib : DrawingLibrary) (df : DataFrame) (ui : UserInput)
    (i : nat) :
  default_league_index df = Some i →
  let sel := selections df i ui in
  let shots := filtered_shots df sel in
  ending (page lib df ui)
  = match shots with
    | [] => Finished
    | _ :: _ =>
        match draw_outcome lib (draw shots sel) with
        | None => Finished
        | Some exn => Raised exn
        end
    end.
Proof.
  intros Hi sel shots. subst shots. unfold page. rewrite Hi. fold sel.
  destruct (filtered_shots df sel); [done|]. by destruct (draw_outcome lib _).
Qed.

(** A figure that is shown is the figure of the filtered rows, all of
    whose results have a colour. *)
Lemma pyplot_shown (lib : DrawingLibrary) (df : DataFrame) (ui : UserInput)
    (i : nat) (fig : Figure) :
  default_league_index df = Some i →
  StPyplot fig ∈ shown (page lib df ui) →
  let sel := selections df i ui in
  let shots := filtered_shots df sel in
  fig = draw shots sel ∧ shots ≠ [] ∧ draw_outcome lib fig = None.
Proof.
  intros Hi Hfig sel shots.
  apply (elem_of_page_shown lib df ui i _ Hi) in Hfig
    as [Hside|[[_ ?]|(Hne & Hdraw & [= ->])]]; [|done|done].
  by apply elem_of_sidebar in Hside.
Qed.



(** The legend comprehension alone, on rows it never receives from the
    script: it ranges over the dict, so 'Own Goal' would get no entry. *)
Example handles_skip_own_goal :
  let shots := filtered_shots sample_df (selections sample_df 0 untouched) in
  present_results shots = ["Goal"; "Own Goal"] ∧
  label <$> handles shots = ["Goal"].
Proof. split; reflexivity. Qed.

(** A page with a row whose result has no colour ends in an exception
    after the sidebar: no figure is shown. *)
Lemma page_invalid_colors (lib : DrawingLibrary) (df : DataFrame)
    (ui : UserInput) (i : nat) :
  default_league_index df = Some i →
  let sel := selections df i ui in
  ¬ colors_valid (scatter (filtered_shots df sel)) →
  ∃ exn, page lib df ui = {| shown := sidebar df i sel; ending := Raised exn |}.
Proof.
  intros Hi sel Hnan. unfold page. rewrite Hi. fold sel.
  destruct (filtered_shots df sel) as [|r rows] eqn:Hshots.
  - destruct Hnan. constructor.
  - destruct (draw_outcome_invalid_colors lib (draw (r :: rows) sel) Hnan)
      as [exn ->].
    by exists exn.
Qed.

(** C4 at a failing input.  The Premier League file holds a goal and an
    own goal.  With no widget touched both rows reach line 138, where
    [Series.map(result_colors)] gives the own goal no colour, while the
    legend's [result_colors.get('Own Goal', 'black')] would give black.
    The rerun then ends in an exception, [ValueError] when the libraries
    raise nothing else first, and the figure is not shown. *)
Theorem own_goal_marker_has_no_color :
  let sel := selections sample_df 0 untouched in
  let shots := filtered_shots sample_df sel in
  result <$> shots = [Some "Goal"; Some "Own Goal"] ∧
  marker_color <$> scatter shots = [Some "yellow"; None] ∧
  dict_get "Own Goal" "black" result_colors = "black" ∧
  app quiet_library fs_all untouched
  = {| shown := sidebar sample_df 0 sel; ending := Raised "ValueError" |} ∧
  ∀ lib, ∃ exn,
    app lib fs_all untouched
    = {| shown := sidebar sample_df 0 sel; ending := Raised exn |}.
Proof.
  split_and!; try reflexivity.
  intros lib.
  destruct (page_invalid_colors lib sample_df untouched 0 eq_refl) as [exn Hpage].
  - intros Hvalid. apply (bool_decide_pack _) in Hvalid. by vm_compute in Hvalid.
  - exists exn. by rewrite <- Hpage.
Qed.

(** C10. The number in the sidebar is the number of rows left after the
    [dropna] of line 107, and a figure, when one is drawn, has one marker
    for each of those rows. *)
Theorem displayed_count_is_plotted_rows (lib : DrawingLibrary)
    (df : DataFrame) (ui : UserInput) (i : nat) :
  default_league_index df = Some i →
  let sel := selections df i ui in
  (∀ n, StSidebarInfo (total_shots_text n) ∈ shown (page lib df ui) ↔
        n = length (dropna (unvalidated_shots df sel))) ∧
  (∀ fig, StPyplot fig ∈ shown (page lib df ui) →
          fig_markers fig = scatter (dropna (unvalidated_shots df sel)) ∧
          length (fig_markers fig) = length (dropna (unvalidated_shots df sel))).
Proof.
  intros Hi sel. split.
  - intros n. rewrite (elem_of_page_shown lib df ui i _ Hi). fold sel. split.
    + intros [Hside|[[_ ?]|(_ & _ & ?)]]; [|done|done].
      apply elem_of_sidebar in Hside. by apply total_shots_text_inj in Hside.
    + intros ->. left. apply sidebar_info.
  - intros fig Hfig.
    destruct (pyplot_shown lib df ui i fig Hi Hfig) as (-> & _ & _).
    simpl. split; [done | apply length_fmap].
Qed.

Lemma displayed_count_is_plotted_rows_witness :
  let sel := selections sample_df 0 goals_and_saves in
  (∀ n, StSidebarInfo (total_shots_text n)
          ∈ shown (page quiet_library sample_df goals_and_saves) ↔
        n = length (dropna (unvalidated_shots sample_df sel))) ∧
  (∀ fig, StPyplot fig ∈ shown (page quiet_library sample_df goals_and_saves) →
          fig_markers fig = scatter (dropna (unvalidated_shots sample_df sel)) ∧
          length (fig_markers fig)
          = length (dropna (unvalidated_shots sample_df sel))).
Proof.
  apply (displayed_count_is_plotted_rows quiet_library sample_df
           goals_and_saves 0).
  reflexivity.
Defined.

(** On the sample data the validity pass drops one of three rows, and the
    sidebar shows the two that are left. *)
Example sample_count :
  length (unvalidated_shots sample_df (selections sample_df 0 untouched)) = 3 ∧
  shown (app quiet_library fs_all untouched) !! 10
  = Some (StSidebarInfo "Number of shots: 2").
Proof. split; reflexivity. Qed.

(** * Further properties of the script *)

(** ** Loading and merging *)

(** With the five files present the loop returns the five tables, each
    tagged with its league, in the order of [LEAGUE_FILES]. *)
Lemma load_all_present (fs : FileSystem) :
  (∀ file_path, file_path ∈ dict_values LEAGUE_FILES → is_Some (fs file_path)) →
  load_all fs
  = inl ((λ entry, (entry.1, with_league entry.1 <$> default [] (fs entry.2)))
         <$> LEAGUE_FILES).
Proof.
  intros Hall.
  assert (∀ f, bool_decide (f ∈ dict_values LEAGUE_FILES) = true →
               is_Some (fs f)) as Hf
    by (intros f Hf; apply Hall; by apply bool_decide_eq_true in Hf).
  destruct (Hf "epl_shots.csv" eq_refl) as [r1 H1].
  destruct (Hf "laliga_shots.csv" eq_refl) as [r2 H2].
  destruct (Hf "fra_shots.csv" eq_refl) as [r3 H3].
  destruct (Hf "ger_shots.csv" eq_refl) as [r4 H4].
  destruct (Hf "ita_shots.csv" eq_refl) as [r5 H5].
  unfold load_all. simpl. by rewrite H1, H2, H3, H4, H5.
Qed.

Lemma elem_of_LEAGUE_FILES (lg file_path : string) :
  (lg, file_path) ∈ LEAGUE_FILES →
  (lg, file_path) = ("ENG-Premier League", "epl_shots.csv") ∨
  (lg, file_path) = ("ESP-La Liga", "laliga_shots.csv") ∨
  (lg, file_path) = ("FRA-Ligue 1", "fra_shots.csv") ∨
  (lg, file_path) = ("GER-Bundesliga", "ger_shots.csv") ∨
  (lg, file_path) = ("ITA-Serie A", "ita_shots.csv").
Proof.
  unfold LEAGUE_FILES. rewrite !elem_of_cons, elem_of_nil. tauto.
Qed.

Lemma filter_league_tagged (lg lg' : string) (rows : list CsvRow) :
  filtered_by_league (fill_unknown <$> (with_league lg' <$> rows)) lg
  = if decide (lg' = lg) then fill_unknown <$> (with_league lg' <$> rows)
    else [].
Proof.
  unfold filtered_by_league. induction rows as [|r rows IH].
  - by destruct (decide (lg' = lg)).
  - rewrite !fmap_cons. destruct (decide (lg' = lg)) as [Heq|Hne].
    + rewrite filter_cons_True by done. by rewrite IH.
    + by rewrite filter_cons_False.
Qed.

Lemma filtered_by_league_app (df1 df2 : DataFrame) (lg : string) :
  filtered_by_league (df1 ++ df2) lg
  = filtered_by_league df1 lg ++ filtered_by_league df2 lg.
Proof. apply filter_app. Qed.

(** The combined table of a successful load, league by league. *)
Lemma combined_of_present (fs : FileSystem) (data : dict DataFrame) :
  (∀ file_path, file_path ∈ dict_values LEAGUE_FILES → is_Some (fs file_path)) →
  load_all fs = inl data →
  combined_shots_df data
  = concat ((λ entry, fill_unknown <$>
                        (with_league entry.1 <$> default [] (fs entry.2)))
            <$> LEAGUE_FILES).
Proof.
  intros Hall Hload. rewrite (load_all_present fs Hall) in Hload.
  injection Hload as <-. unfold combined_shots_df, pd_concat. simpl.
  by rewrite !fmap_app, fmap_nil.
Qed.

Lemma fill_unknown_complete (r : Shot) : categorical_complete (fill_unknown r).
Proof.
  unfold categorical_complete, fill_unknown, fillna; simpl.
  split_and!; by case_match.
Qed.

(** X1. After the six [fillna] lines no row has a NaN in [team],
    [player], [game], [situation], [body_part] or [result]; a string that
    was there is kept, and [league] and the three numeric columns are not
    touched. *)
Theorem normalised_rows_have_no_missing_category (data : dict DataFrame) :
  Forall categorical_complete (combined_shots_df data) ∧
  length (combined_shots_df data) = length (pd_concat data) ∧
  ∀ k r, pd_concat data !! k = Some r →
    ∃ r', combined_shots_df data !! k = Some r' ∧
      league r' = league r ∧
      location_x r' = location_x r ∧ location_y r' = location_y r ∧
      xg r' = xg r ∧
      (∀ s, team r = Some s → team r' = Some s) ∧
      (∀ s, player r = Some s → player r' = Some s) ∧
      (∀ s, game r = Some s → game r' = Some s) ∧
      (∀ s, situation r = Some s → situation r' = Some s) ∧
      (∀ s, body_part r = Some s → body_part r' = Some s) ∧
      (∀ s, result r = Some s → result r' = Some s) ∧
      (team r = None → team r' = Some "Unknown") ∧
      (player r = None → player r' = Some "Unknown") ∧
      (game r = None → game r' = Some "Unknown") ∧
      (situation r = None → situation r' = Some "Unknown") ∧
      (body_part r = None → body_part r' = Some "Unknown") ∧
      (result r = None → result r' = Some "Unknown").
Proof.
  unfold combined_shots_df. split_and!.
  - apply Forall_fmap, Forall_forall. intros r _. apply fill_unknown_complete.
  - apply length_fmap.
  - intros k r Hk. exists (fill_unknown r). rewrite list_lookup_fmap, Hk.
    unfold fill_unknown, fillna; simpl.
    split_and!; try done; first [by intros s -> | by intros ->].
Qed.

(** X2. Normalising twice is normalising once: the [fillna] lines change
    nothing on a table they have already been applied to. *)
Theorem normalisation_idempotent (df : DataFrame) :
  fill_unknown <$> (fill_unknown <$> df) = fill_unknown <$> df.
Proof.
  rewrite <- list_fmap_compose. apply list_fmap_ext. intros _ r _. simpl.
  unfold fill_unknown, fillna; simpl.
  by destruct (team r), (player r), (game r), (situation r), (body_part r),
    (result r).
Qed.

(** X3. The combined table has as many rows as the loaded tables have
    together. *)
Theorem combined_row_count (data : dict DataFrame) :
  length (combined_shots_df data) = sum_list (length <$> dict_values data).
Proof.
  unfold combined_shots_df, pd_concat. rewrite length_fmap.
  induction (dict_values data) as [|df dfs IH]; [done|].
  simpl. by rewrite length_app, IH.
Qed.

(** A load that succeeded found every configured file. *)
Lemma load_all_inl_present (fs : FileSystem) (data : dict DataFrame) :
  load_all fs = inl data →
  ∀ file_path, file_path ∈ dict_values LEAGUE_FILES → is_Some (fs file_path).
Proof.
  intros Hload f Hf. destruct (fs f) as [rows|] eqn:Hrows; [by eexists|].
  destruct (load_leagues_missing fs LEAGUE_FILES []) as (named & _ & _ & Hinr);
    [by eauto|].
  unfold load_all in Hload. congruence.
Qed.

(** The rows of one league in the combined table of a successful load are
    the rows of that league's file, tagged and normalised. *)
Lemma filtered_by_league_of_loaded (fs : FileSystem) (data : dict DataFrame)
    (lg file_path : string) (rows : list CsvRow) :
  load_all fs = inl data →
  (lg, file_path) ∈ LEAGUE_FILES →
  fs file_path = Some rows →
  filtered_by_league (combined_shots_df data) lg
  = fill_unknown <$> (with_league lg <$> rows).
Proof.
  intros Hload Hin Hrows.
  rewrite (combined_of_present fs data (load_all_inl_present fs data Hload) Hload).
  simpl. rewrite !filtered_by_league_app, !filter_league_tagged. simpl.
  destruct (elem_of_LEAGUE_FILES lg file_path Hin)
    as [Heq|[Heq|[Heq|[Heq|Heq]]]];
    injection Heq as -> ->; rewrite Hrows; simpl;
    repeat (case_decide; [try done|try done]);
    by rewrite ?app_nil_r.
Qed.

Lemma page_shows_no_error (lib : DrawingLibrary) (df : DataFrame)
    (ui : UserInput) (msg : string) :
  StError msg ∉ shown (page lib df ui).
Proof.
  destruct (default_league_index df) as [i|] eqn:Hi.
  - rewrite (elem_of_page_shown lib df ui i _ Hi).
    intros [Hside|[[_ ?]|(_ & _ & ?)]]; [|done|done].
    by apply elem_of_sidebar in Hside.
  - unfold page. rewrite Hi. simpl.
    rewrite !not_elem_of_cons. split_and!; try done. apply not_elem_of_nil.
Qed.

Lemma page_never_stops (lib : DrawingLibrary) (df : DataFrame)
    (ui : UserInput) :
  ending (page lib df ui) ≠ Stopped.
Proof.
  destruct (default_league_index df) as [i|] eqn:Hi.
  - rewrite (page_ending lib df ui i Hi).
    destruct (filtered_shots _ _); [done|]. by destruct (draw_outcome _ _).
  - unfold page. by rewrite Hi.
Qed.

Lemma load_leagues_first_missing (fs : FileSystem)
    (before after : dict string) (lg file_path : string)
    (acc : dict DataFrame) :
  (∀ p, p ∈ dict_values before → is_Some (fs p)) →
  fs file_path = None →
  load_leagues fs (before ++ (lg, file_path) :: after) acc = inr file_path.
Proof.
  revert acc. induction before as [|[lg' f'] before IH]; intros acc Hbefore Hnone.
  - simpl. by rewrite Hnone.
  - simpl. destruct (Hbefore f') as [rows ->]; [by apply elem_of_cons; left|].
    apply IH; [|done]. intros p Hp. apply Hbefore. by apply elem_of_cons; right.
Qed.

(** The file the loop stops at is a configured file that is absent. *)
Lemma load_leagues_inr (fs : FileSystem) (files : dict string)
    (acc : dict DataFrame) (named : string) :
  load_leagues fs files acc = inr named →
  named ∈ dict_values files ∧ fs named = None.
Proof.
  revert acc. induction files as [|[lg f] files IH]; intros acc; simpl; [done|].
  destruct (fs f) as [rows|] eqn:Hf.
  - intros [Hin Hnone]%IH. split; [by apply elem_of_cons; right | done].
  - intros [= <-]. split; [by apply elem_of_cons; left | done].
Qed.

(** X4. When the five configured files are all present the loop loads
    every one of them: the result has the five league keys in the order
    of [LEAGUE_FILES], and under each key the rows of that league's file,
    each tagged with the league. *)
Theorem load_succeeds_with_all_files (fs : FileSystem) :
  (∀ file_path, file_path ∈ dict_values LEAGUE_FILES → is_Some (fs file_path)) →
  ∃ data,
    load_all fs = inl data ∧
    dict_keys data = dict_keys LEAGUE_FILES ∧
    ∀ lg file_path rows,
      (lg, file_path) ∈ LEAGUE_FILES → fs file_path = Some rows →
      dict_lookup lg data = Some (with_league lg <$> rows).
Proof.
  intros Hall. eexists. split; [by apply load_all_present|].
  split; [reflexivity|]. intros lg f rows Hin Hrows.
  destruct (elem_of_LEAGUE_FILES lg f Hin) as [Heq|[Heq|[Heq|[Heq|Heq]]]];
    injection Heq as -> ->; simpl; by rewrite Hrows.
Qed.

Lemma fs_all_present (file_path : string) :
  file_path ∈ dict_values LEAGUE_FILES → is_Some (fs_all file_path).
Proof.
  intros Hin. unfold fs_all.
  repeat case_decide; first [exact (ex_intro _ _ eq_refl) | done].
Defined.

Lemma load_succeeds_with_all_files_witness :
  ∃ data,
    load_all fs_all = inl data ∧
    dict_keys data = dict_keys LEAGUE_FILES ∧
    ∀ lg file_path rows,
      (lg, file_path) ∈ LEAGUE_FILES → fs_all file_path = Some rows →
      dict_lookup lg data = Some (with_league lg <$> rows).
Proof. apply (load_succeeds_with_all_files fs_all fs_all_present). Defined.

(** X5. After a successful load, the rows that the league filter of
    line 52 keeps for a configured league are the rows of that league's
    file, in file order, tagged and normalised: no row of another file
    gets in and none of its own is lost. *)
Theorem league_filter_recovers_file (fs : FileSystem) (data : dict DataFrame)
    (lg file_path : string) (rows : list CsvRow) :
  load_all fs = inl data →
  (lg, file_path) ∈ LEAGUE_FILES →
  fs file_path = Some rows →
  filtered_by_league (combined_shots_df data) lg
  = fill_unknown <$> (with_league lg <$> rows).
Proof. apply filtered_by_league_of_loaded. Qed.

Lemma league_filter_recovers_file_witness :
  filtered_by_league sample_df "ESP-La Liga"
  = fill_unknown <$> (with_league "ESP-La Liga" <$> [pedri_miss]).
Proof.
  apply (league_filter_recovers_file fs_all sample_tables "ESP-La Liga"
           "laliga_shots.csv" [pedri_miss]).
  - reflexivity.
  - apply (bool_decide_unpack _). vm_compute. exact I.
  - reflexivity.
Defined.

(** X6. Every row of the combined table of a successful load carries one
    of the five configured league names. *)
Theorem combined_rows_have_configured_league (fs : FileSystem)
    (data : dict DataFrame) :
  load_all fs = inl data →
  Forall (λ r, league r ∈ dict_keys LEAGUE_FILES) (combined_shots_df data).
Proof.
  intros Hload.
  rewrite (combined_of_present fs data (load_all_inl_present fs data Hload) Hload).
  simpl. rewrite !Forall_app. split_and!; try apply Forall_nil_2;
    apply Forall_fmap, Forall_fmap, Forall_forall; intros r _; simpl;
    apply (bool_decide_unpack _); vm_compute; exact I.
Qed.

Lemma combined_rows_have_configured_league_witness :
  Forall (λ r, league r ∈ dict_keys LEAGUE_FILES) sample_df.
Proof.
  apply (combined_rows_have_configured_league fs_all sample_tables).
  reflexivity.
Defined.

(** X7. The run shows an error, and stops, exactly when one of the five
    configured files is absent; with all of them present no error is
    shown and the script is not stopped. *)
Theorem error_iff_file_missing (lib : DrawingLibrary) (fs : FileSystem)
    (ui : UserInput) :
  ((∃ msg, StError msg ∈ shown (app lib fs ui)) ↔
   ∃ file_path, file_path ∈ dict_values LEAGUE_FILES ∧ fs file_path = None) ∧
  (ending (app lib fs ui) = Stopped ↔
   ∃ file_path, file_path ∈ dict_values LEAGUE_FILES ∧ fs file_path = None).
Proof.
  unfold app. destruct (load_all fs) as [data|named] eqn:Hload.
  - assert (¬ ∃ f, f ∈ dict_values LEAGUE_FILES ∧ fs f = None) as Hnone.
    { intros (f & Hf & Hnone).
      destruct (load_all_inl_present fs data Hload f Hf) as [rows Hrows].
      congruence. }
    split; split; try (intros ?; by destruct Hnone).
    + intros [msg Hmsg]. by apply page_shows_no_error in Hmsg.
    + intros Hstop. by apply page_never_stops in Hstop.
  - assert (∃ f, f ∈ dict_values LEAGUE_FILES ∧ fs f = None) as Hmissing
      by (exists named; by apply (load_leagues_inr fs LEAGUE_FILES [])).
    simpl. split; split; try done.
    intros _. eexists. apply list_elem_of_here.
Qed.

(** X8. The error quotes the first absent file in the order of
    [LEAGUE_FILES]: files after it are not looked at. *)
Theorem first_missing_file_is_named (lib : DrawingLibrary) (fs : FileSystem)
    (ui : UserInput) (before after : dict string) (lg file_path : string) :
  LEAGUE_FILES = before ++ (lg, file_path) :: after →
  (∀ p, p ∈ dict_values before → is_Some (fs p)) →
  fs file_path = None →
  app lib fs ui
  = {| shown :=
         [StError ("Error: '" +:+ file_path +:+
                   "' not found. Please make sure the data file is in the same directory.")];
       ending := Stopped |}.
Proof.
  intros Hsplit Hbefore Hnone. unfold app, load_all. rewrite Hsplit.
  by rewrite (load_leagues_first_missing fs before after lg file_path []).
Qed.

Lemma first_missing_file_is_named_witness :
  fs_without_epl_ger "ger_shots.csv" = None ∧
  app quiet_library fs_without_epl_ger untouched
  = {| shown :=
         [StError "Error: 'epl_shots.csv' not found. Please make sure the data file is in the same directory."];
       ending := Stopped |}.
Proof.
  split; [reflexivity|].
  apply (first_missing_file_is_named quiet_library fs_without_epl_ger untouched
           [] (tail LEAGUE_FILES) "ENG-Premier League" "epl_shots.csv").
  - reflexivity.
  - intros p Hp. by apply elem_of_nil in Hp.
  - reflexivity.
Defined.

(** ** The cascade as one filter *)

Section filters.
Context {A : Type}.
Implicit Types (P Q : A → Prop) (l : list A).

Lemma filter_all P `{∀ x, Decision (P x)} l :
  (∀ x, x ∈ l → P x) → filter P l = l.
Proof.
  induction l as [|x l IH]; intros Hall; [done|].
  rewrite filter_cons_True by (apply Hall, list_elem_of_here).
  f_equal. apply IH. intros y Hy. by apply Hall, list_elem_of_further.
Qed.

Lemma filter_ext_in P Q `{∀ x, Decision (P x)} `{∀ x, Decision (Q x)} l :
  (∀ x, x ∈ l → P x ↔ Q x) → filter P l = filter Q l.
Proof.
  induction l as [|x l IH]; intros Hext; [done|].
  assert (filter P l = filter Q l) as Htail
    by (apply IH; intros y Hy; by apply Hext, list_elem_of_further).
  destruct (decide (P x)) as [HP|HP].
  - rewrite !filter_cons_True; [by f_equal | by apply Hext; [left|] | done].
  - rewrite !filter_cons_False; [done | | done].
    intros HQ. by apply HP, Hext; [left|].
Qed.
End filters.

Lemma narrow_filter column selected (rows : DataFrame) :
  narrow column selected rows = filter (λ r, passes selected (column r)) rows.
Proof.
  unfold narrow, passes. destruct selected as [|s selected].
  - symmetry. apply filter_all. intros r _. by left.
  - apply list_filter_iff. intros r. split; [by right|].
    by intros [?|?].
Qed.

Lemma filtered_by_teams_filter (rows : DataFrame) teams :
  filtered_by_teams rows teams = filter (passes_teams teams) rows.
Proof.
  unfold filtered_by_teams, passes_teams. case_decide as Hall.
  - symmetry. apply filter_all. intros r _. by left.
  - apply list_filter_iff. intros r. split; [by right|].
    by intros [?|?].
Qed.

(** Each stage is a filter by its own condition. *)
Lemma apply_stage_filter sel st (rows : DataFrame) :
  apply_stage sel st rows = filter (stage_keeps sel st) rows.
Proof.
  destruct st; simpl;
    first [reflexivity | apply narrow_filter | apply filtered_by_teams_filter].
Qed.

(** A run of stages is the filter by all their conditions together. *)
Lemma run_stages_filter sel stages (rows : DataFrame) :
  run_stages sel stages rows
  = filter (λ r, Forall (λ st, stage_keeps sel st r) stages) rows.
Proof.
  revert rows. induction stages as [|st stages IH]; intros rows.
  - simpl. symmetry. apply filter_all. intros r _. constructor.
  - unfold run_stages in *. simpl. rewrite IH, apply_stage_filter.
    rewrite list_filter_filter. apply list_filter_iff. intros r.
    rewrite Forall_cons. tauto.
Qed.

Lemma elem_of_run_stages sel stages (rows : DataFrame) r :
  r ∈ run_stages sel stages rows ↔
  r ∈ rows ∧ Forall (λ st, stage_keeps sel st r) stages.
Proof. rewrite run_stages_filter, list_elem_of_filter. tauto. Qed.

(** X9. A row is counted and drawn exactly when it is a row of the
    combined table, is of the selected league, passes the team selection
    ('All' selected, or its team selected), passes each of the five
    optional selections (nothing selected, or its value selected), and has
    [location_x], [location_y], [xg] and [result]. *)
Theorem filtered_shots_membership (df : DataFrame) (sel : Selections)
    (r : Shot) :
  r ∈ filtered_shots df sel ↔
  r ∈ df ∧
  league r = selected_league sel ∧
  ("All" ∈ selected_teams sel ∨ isin (selected_teams sel) (team r)) ∧
  (selected_players sel = [] ∨ isin (selected_players sel) (player r)) ∧
  (selected_games sel = [] ∨ isin (selected_games sel) (game r)) ∧
  (selected_situations sel = [] ∨ isin (selected_situations sel) (situation r)) ∧
  (selected_body_parts sel = [] ∨ isin (selected_body_parts sel) (body_part r)) ∧
  (selected_results sel = [] ∨ isin (selected_results sel) (result r)) ∧
  is_Some (location_x r) ∧ is_Some (location_y r) ∧
  is_Some (xg r) ∧ is_Some (result r).
Proof.
  rewrite <- run_stages_filtered_shots, elem_of_run_stages.
  unfold stage_order. rewrite !Forall_cons, Forall_nil. simpl.
  unfold passes_teams, passes, plottable. tauto.
Qed.

(** X10. Filtering the filtered rows again with the same selections
    changes nothing. *)
Theorem cascade_idempotent (df : DataFrame) (sel : Selections) :
  filtered_shots (filtered_shots df sel) sel = filtered_shots df sel.
Proof.
  rewrite <- !run_stages_filtered_shots, !run_stages_filter.
  rewrite list_filter_filter. apply list_filter_iff. tauto.
Qed.

(** X11. The order of the stages does not matter: applying the same
    stages in any other order leaves the same rows, in the same order. *)
Theorem cascade_order_irrelevant (df : DataFrame) (sel : Selections)
    (stages stages' : list Stage) :
  stages ≡ₚ stages' →
  run_stages sel stages df = run_stages sel stages' df.
Proof.
  intros Hperm. rewrite !run_stages_filter. apply list_filter_iff.
  intros r. by rewrite Hperm.
Qed.

Lemma cascade_order_irrelevant_witness :
  run_stages (selections sample_df 0 goals_and_saves)
    [ValidityStage; ResultStage; LeagueStage; TeamStage] sample_df
  = run_stages (selections sample_df 0 goals_and_saves)
      [LeagueStage; TeamStage; ResultStage; ValidityStage] sample_df.
Proof.
  apply (cascade_order_irrelevant sample_df
           (selections sample_df 0 goals_and_saves)
           [ValidityStage; ResultStage; LeagueStage; TeamStage]
           [LeagueStage; TeamStage; ResultStage; ValidityStage]).
  apply (Permutation_cons_app [LeagueStage; TeamStage; ResultStage] []).
  apply (Permutation_cons_app [LeagueStage; TeamStage] []).
  reflexivity.
Defined.

(** ** The league select box and the option lists *)

Lemma index_Some_lookup (x : string) (l : list string) (i : nat) :
  index x l = Some i → l !! i = Some x.
Proof.
  revert i. induction l as [|y l IH]; intros i; simpl; [done|].
  destruct (decide (y = x)) as [->|Hne].
  - by intros [= <-].
  - destruct (index x l) as [j|]; simpl; [|done].
    intros [= <-]. by apply IH.
Qed.

Lemma NoDup_omap_id {A} (l : list (option A)) : NoDup l → NoDup (omap id l).
Proof.
  induction 1 as [|o l Hnotin Hnodup IH]; [constructor|].
  destruct o as [a|]; simpl; [|done]. constructor; [|done].
  rewrite list_elem_of_omap. intros (o & Ho & Hid). simpl in Hid. by subst o.
Qed.

Lemma filtered_by_league_nil (df : DataFrame) (lg : string) :
  filtered_by_league df lg = [] ↔ lg ∉ leagues df.
Proof.
  rewrite elem_of_leagues. unfold filtered_by_league. split.
  - intros Hnil (r & Hr & Hlg).
    by apply (filter_nil_not_elem_of _ _ r Hnil Hlg).
  - intros Hnone. destruct (filter _ df) as [|r rows] eqn:Hf; [done|].
    assert (r ∈ filter (λ r, league r = lg) df) as Hr
      by (rewrite Hf; apply list_elem_of_here).
    apply list_elem_of_filter in Hr as [Hlg Hr]. destruct Hnone; eauto.
Qed.

(** X12. With the five files present, the rerun ends at the league
    select box, in the [ValueError] of
    [leagues.index('ENG-Premier League')] with only the page
    configuration and the sidebar header shown, exactly when
    [epl_shots.csv] has no rows. *)
Theorem select_box_error_iff_epl_file_empty (lib : DrawingLibrary)
    (fs : FileSystem) (ui : UserInput) (data : dict DataFrame) :
  load_all fs = inl data →
  (app lib fs ui
   = {| shown := [StSetPageConfig "wide"; StSidebarHeader "Filter Options"];
        ending := Raised "ValueError" |}
   ↔ fs "epl_shots.csv" = Some []).
Proof.
  intros Hload. unfold app. rewrite Hload.
  rewrite page_without_default, <- filtered_by_league_nil.
  destruct (load_all_inl_present fs data Hload "epl_shots.csv") as [rows Hrows];
    [apply (bool_decide_unpack _); vm_compute; exact I|].
  rewrite (filtered_by_league_of_loaded fs data "ENG-Premier League"
             "epl_shots.csv" rows Hload); [|apply list_elem_of_here|done].
  rewrite Hrows. destruct rows; simpl; split; congruence.
Qed.

Lemma select_box_error_iff_epl_file_empty_witness :
  app quiet_library fs_empty_epl untouched
  = {| shown := [StSetPageConfig "wide"; StSidebarHeader "Filter Options"];
       ending := Raised "ValueError" |}
  ↔ fs_empty_epl "epl_shots.csv" = Some [].
Proof.
  apply (select_box_error_iff_epl_file_empty quiet_library fs_empty_epl
           untouched (("ENG-Premier League", []) :: tail sample_tables)).
  reflexivity.
Defined.

(** X13. The options of the league select box are the league names that
    have rows in the combined table, each once, in ascending order. *)
Theorem leagues_sorted_distinct (df : DataFrame) :
  Sorted String.le (leagues df) ∧
  NoDup (leagues df) ∧
  ∀ lg, lg ∈ leagues df ↔ ∃ r, r ∈ df ∧ league r = lg.
Proof.
  split_and!.
  - apply Sorted_merge_sort, _.
  - unfold leagues, sorted. rewrite merge_sort_Permutation. apply NoDup_unique.
  - apply elem_of_leagues.
Qed.

(** X14. An option list built as [sorted(rows[column].unique())] holds
    the strings of that column in those rows, each once, in ascending
    order; this is how the team options after 'All' and the player,
    match, situation, body part and result options are built. *)
Theorem options_sorted_distinct (column : Shot → option string)
    (rows : DataFrame) :
  Sorted String.le (sorted (unique_strings column rows)) ∧
  NoDup (sorted (unique_strings column rows)) ∧
  ∀ s, s ∈ sorted (unique_strings column rows) ↔
       ∃ r, r ∈ rows ∧ column r = Some s.
Proof.
  split_and!.
  - apply Sorted_merge_sort, _.
  - unfold sorted. rewrite merge_sort_Permutation.
    apply NoDup_omap_id, NoDup_unique.
  - intros s. by rewrite elem_of_sorted, elem_of_unique_strings.
Qed.

(** X15. What the seven widgets offer depends on the league and team
    choices only: two reruns that agree on those two show the same select
    box and the same six multiselects, whatever is selected in the other
    five. *)
Theorem widgets_depend_on_league_and_teams (lib : DrawingLibrary)
    (df : DataFrame) (ui ui' : UserInput) :
  pick_league ui = pick_league ui' →
  pick_teams ui = pick_teams ui' →
  take 9 (shown (page lib df ui)) = take 9 (shown (page lib df ui')).
Proof.
  intros Hleague Hteams. unfold page.
  destruct (default_league_index df) as [i|]; [|done].
  assert (∀ sel tl, take 9 (sidebar df i sel ++ tl) = take 9 (sidebar df i sel))
    as Htake by reflexivity.
  assert (take 9 (sidebar df i (selections df i ui))
          = take 9 (sidebar df i (selections df i ui'))) as Hside.
  { unfold sidebar. simpl. by rewrite Hleague, Hteams. }
  destruct (filtered_shots df (selections df i ui));
    destruct (filtered_shots df (selections df i ui'));
    repeat (destruct (draw_outcome _ _)); cbn [shown];
    by rewrite ?Htake.
Qed.

Lemma widgets_depend_on_league_and_teams_witness :
  take 9 (shown (page quiet_library sample_df untouched))
  = take 9 (shown (page quiet_library sample_df goals_and_saves)).
Proof.
  apply (widgets_depend_on_league_and_teams quiet_library sample_df untouched
           goals_and_saves);
    reflexivity.
Defined.

Lemma title_parts_all (sel sel' : Selections) :
  "All" ∈ selected_teams sel → "All" ∈ selected_teams sel' →
  selected_league sel = selected_league sel' →
  selected_players sel = selected_players sel' →
  selected_games sel = selected_games sel' →
  selected_situations sel = selected_situations sel' →
  selected_body_parts sel = selected_body_parts sel' →
  selected_results sel = selected_results sel' →
  title_parts sel = title_parts sel'.
Proof.
  intros Hall Hall' Hl Hp Hg Hs Hb Hr. unfold title_parts.
  rewrite Hl, Hp, Hg, Hs, Hb, Hr.
  by rewrite !(decide_False (P := _ ∧ "All" ∉ _)) by tauto.
Qed.

(** X16. Selecting 'All' together with specific teams gives the same page
    as selecting 'All' alone: the same widgets, the same count, the same
    markers, title and legend. *)
Theorem all_with_teams_is_all (lib : DrawingLibrary) (df : DataFrame)
    (ui : UserInput) (teams : list string) :
  "All" ∈ teams →
  page lib df (with_teams ui teams) = page lib df (with_teams ui ["All"]).
Proof.
  intros Hall. unfold page.
  destruct (default_league_index df) as [i|]; [|done].
  assert ("All" ∈ ["All"]) as Hall' by apply list_elem_of_here.
  assert (∀ rows, filtered_by_teams rows teams = filtered_by_teams rows ["All"])
    as Hteams.
  { intros rows. unfold filtered_by_teams. by rewrite !decide_True. }
  assert (filtered_shots df (selections df i (with_teams ui teams))
          = filtered_shots df (selections df i (with_teams ui ["All"]))) as Hshots.
  { unfold filtered_shots, unvalidated_shots. simpl. by rewrite Hteams. }
  assert (sidebar df i (selections df i (with_teams ui teams))
          = sidebar df i (selections df i (with_teams ui ["All"]))) as Hside.
  { unfold sidebar. rewrite Hshots. simpl. by rewrite Hteams. }
  assert (∀ shots, draw shots (selections df i (with_teams ui teams))
                   = draw shots (selections df i (with_teams ui ["All"])))
    as Hdraw.
  { intros shots. unfold draw. f_equal. f_equal. by apply title_parts_all. }
  by rewrite Hshots, Hside, Hdraw.
Qed.

Lemma all_with_teams_is_all_witness :
  page quiet_library sample_df (with_teams untouched ["Arsenal"; "All"])
  = page quiet_library sample_df (with_teams untouched ["All"]).
Proof.
  apply (all_with_teams_is_all quiet_library sample_df untouched
           ["Arsenal"; "All"]).
  apply (bool_decide_unpack _). vm_compute. exact I.
Defined.

(** ** What the page shows *)

Lemma selected_league_default (df : DataFrame) (ui : UserInput) (i : nat) :
  default_league_index df = Some i → pick_league ui = None →
  selected_league (selections df i ui) = "ENG-Premier League".
Proof.
  intros Hi Hpick. simpl. rewrite Hpick. simpl.
  by rewrite (index_Some_lookup _ _ _ Hi).
Qed.

Lemma unvalidated_shots_stages (df : DataFrame) (sel : Selections) :
  unvalidated_shots df sel = run_stages sel (take 7 stage_order) df.
Proof. reflexivity. Qed.

(** X17. A page whose league select box could be built closes in one of
    three ways.  With no row left it shows the message 'No shots match the
    selected filters.' and ends normally.  With a row left it shows the
    figure and ends normally when drawing raised nothing, and otherwise
    ends in the exception with no figure shown.  The message and a figure
    are never shown together, and the message is the only text written. *)
Theorem empty_result_shows_message (lib : DrawingLibrary) (df : DataFrame)
    (ui : UserInput) (i : nat) :
  default_league_index df = Some i →
  let sel := selections df i ui in
  let shots := filtered_shots df sel in
  (∀ text, StWrite text ∈ shown (page lib df ui) ↔
           shots = [] ∧ text = "No shots match the selected filters.") ∧
  (∀ fig, StPyplot fig ∈ shown (page lib df ui) ↔
          shots ≠ [] ∧ fig = draw shots sel ∧ draw_outcome lib fig = None) ∧
  (ending (page lib df ui) = Finished ↔
   shots = [] ∨ draw_outcome lib (draw shots sel) = None) ∧
  (∀ exn, ending (page lib df ui) = Raised exn ↔
          shots ≠ [] ∧ draw_outcome lib (draw shots sel) = Some exn).
Proof.
  intros Hi sel shots. split_and!.
  - intros text. rewrite (elem_of_page_shown lib df ui i _ Hi).
    fold sel. fold shots. split.
    + intros [Hside|[[? [= ->]]|(_ & _ & ?)]]; [|done|done].
      by apply elem_of_sidebar in Hside.
    + intros [? ->]. right. by left.
  - intros fig. rewrite (elem_of_page_shown lib df ui i _ Hi).
    fold sel. fold shots. split.
    + intros [Hside|[[_ ?]|(? & ? & [= ->])]]; [|done|done].
      by apply elem_of_sidebar in Hside.
    + intros (? & -> & ?). right. by right.
  - rewrite (page_ending lib df ui i Hi). fold sel. fold shots.
    destruct shots; [split; [by left | done]|].
    destruct (draw_outcome lib _); split; try done; [by intros [|] | by right].
  - intros exn. rewrite (page_ending lib df ui i Hi). fold sel. fold shots.
    destruct shots; [split; [done | by intros []]|].
    destruct (draw_outcome lib _); split; try done.
    + by intros [= ->].
    + by intros [_ [= ->]].
    + by intros [_ ?].
Qed.

Lemma empty_result_shows_message_witness :
  let sel := selections sample_df 0 teams_cleared in
  let shots := filtered_shots sample_df sel in
  (∀ text, StWrite text ∈ shown (page quiet_library sample_df teams_cleared) ↔
           shots = [] ∧ text = "No shots match the selected filters.") ∧
  (∀ fig, StPyplot fig ∈ shown (page quiet_library sample_df teams_cleared) ↔
          shots ≠ [] ∧ fig = draw shots sel ∧
          draw_outcome quiet_library fig = None) ∧
  (ending (page quiet_library sample_df teams_cleared) = Finished ↔
   shots = [] ∨ draw_outcome quiet_library (draw shots sel) = None) ∧
  (∀ exn, ending (page quiet_library sample_df teams_cleared) = Raised exn ↔
          shots ≠ [] ∧ draw_outcome quiet_library (draw shots sel) = Some exn).
Proof.
  apply (empty_result_shows_message quiet_library sample_df teams_cleared 0).
  reflexivity.
Defined.

(** X18. Before the user touches a widget, the rows counted and drawn
    are the Premier League rows that have [location_x], [location_y] and
    [xg] and [result]: the default selections restrict nothing else. *)
Theorem untouched_page_shows_league_rows (df : DataFrame) (i : nat) :
  default_league_index df = Some i →
  filtered_shots df (selections df i untouched)
  = dropna (filtered_by_league df "ENG-Premier League").
Proof.
  intros Hi. unfold filtered_shots, unvalidated_shots.
  rewrite (selected_league_default df untouched i Hi eq_refl). simpl.
  unfold filtered_by_teams. by rewrite decide_True by apply list_elem_of_here.
Qed.

Lemma untouched_page_shows_league_rows_witness :
  filtered_shots sample_df (selections sample_df 0 untouched)
  = dropna (filtered_by_league sample_df "ENG-Premier League").
Proof.
  apply (untouched_page_shows_league_rows sample_df 0). reflexivity.
Defined.

(** X19. On the combined table the [result] entry of the [dropna] subset
    never removes a row, because [fillna] has filled that column: the
    rows dropped on line 107 are those without [location_x],
    [location_y] or [xg]. *)
Theorem dropna_result_never_drops (data : dict DataFrame) (sel : Selections) :
  filtered_shots (combined_shots_df data) sel
  = filter numeric_complete (unvalidated_shots (combined_shots_df data) sel).
Proof.
  unfold filtered_shots, dropna. apply filter_ext_in. intros r Hr.
  rewrite unvalidated_shots_stages in Hr.
  apply elem_of_run_stages in Hr as [Hr _].
  unfold combined_shots_df in Hr.
  apply list_elem_of_fmap in Hr as (r0 & -> & _).
  destruct (fill_unknown_complete r0) as (_ & _ & _ & _ & _ & Hres).
  unfold plottable, numeric_complete. tauto.
Qed.

(** ** Markers and legend *)

(** X20. The figure has one marker for each filtered row, and every
    marker has a position and a size: no NaN reaches the x, y or s
    argument of [pitch.scatter]. *)
Theorem markers_complete (df : DataFrame) (sel : Selections) :
  length (scatter (filtered_shots df sel)) = length (filtered_shots df sel) ∧
  Forall (λ m, is_Some (marker_x m) ∧ is_Some (marker_y m) ∧
               is_Some (marker_s m))
         (scatter (filtered_shots df sel)).
Proof.
  unfold scatter. split; [apply length_fmap|].
  apply Forall_fmap, Forall_forall. intros r Hr.
  unfold filtered_shots, dropna in Hr.
  apply list_elem_of_filter in Hr as [(Hx & Hy & Hg & _) _].
  simpl. unfold scale. by rewrite !fmap_is_Some.
Qed.

(** X21. A shot whose coordinates lie in the unit square is drawn inside
    the 120 by 80 pitch (numbers taken as rationals). *)
Theorem marker_on_pitch (r : Shot) (x y : Q) :
  location_x r = Some x → location_y r = Some y →
  (0 <= x)%Q → (x <= 1)%Q → (0 <= y)%Q → (y <= 1)%Q →
  ∃ mx my,
    marker_x (marker_of r) = Some mx ∧ marker_y (marker_of r) = Some my ∧
    (0 <= mx)%Q ∧ (mx <= inject_Z 120)%Q ∧
    (0 <= my)%Q ∧ (my <= inject_Z 80)%Q.
Proof.
  intros Hx Hy Hx0 Hx1 Hy0 Hy1.
  exists (Qmult x (inject_Z 120)), (Qmult y (inject_Z 80)).
  simpl. rewrite Hx, Hy. simpl. split_and!; try done.
  - by apply Qmult_le_0_compat.
  - apply Qle_trans with (Qmult 1 (inject_Z 120)); [|done].
    by apply Qmult_le_compat_r.
  - by apply Qmult_le_0_compat.
  - apply Qle_trans with (Qmult 1 (inject_Z 80)); [|done].
    by apply Qmult_le_compat_r.
Qed.

Lemma marker_on_pitch_witness :
  ∃ mx my,
    marker_x (marker_of (fill_unknown (with_league "ENG-Premier League" saka_goal)))
    = Some mx ∧
    marker_y (marker_of (fill_unknown (with_league "ENG-Premier League" saka_goal)))
    = Some my ∧
    (0 <= mx)%Q ∧ (mx <= inject_Z 120)%Q ∧
    (0 <= my)%Q ∧ (my <= inject_Z 80)%Q.
Proof.
  apply (marker_on_pitch
           (fill_unknown (with_league "ENG-Premier League" saka_goal))
           (9 # 10) (1 # 2)); done.
Defined.

Lemma isin_Some_elem (values : list string) (cell : option string) :
  isin values cell → ∃ s, cell = Some s ∧ s ∈ values.
Proof. destruct cell as [s|]; simpl; [eauto | done]. Qed.

(** X22. When the result multiselect is not empty and holds only keys of
    [result_colors], every row drawn has one of the selected results and
    its marker has that result's colour from the dict. *)
Theorem selected_palette_results_are_coloured (df : DataFrame)
    (sel : Selections) :
  selected_results sel ≠ [] →
  selected_results sel ⊆ dict_keys result_colors →
  Forall (λ r, ∃ res c,
            res ∈ selected_results sel ∧ result r = Some res ∧
            dict_lookup res result_colors = Some c ∧
            marker_color (marker_of r) = Some c)
         (filtered_shots df sel).
Proof.
  intros Hsel Hkeys. apply Forall_forall. intros r Hr.
  rewrite <- run_stages_filtered_shots in Hr.
  apply elem_of_run_stages in Hr as [_ Hkeeps].
  rewrite Forall_forall in Hkeeps.
  assert (stage_keeps sel ResultStage r) as [Hnil|Hin]
    by (apply Hkeeps, (bool_decide_unpack _); vm_compute; exact I);
    [done|].
  apply isin_Some_elem in Hin as (res & Hres & Hin).
  destruct (dict_lookup_is_Some result_colors res (Hkeys res Hin)) as [c Hc].
  exists res, c. split_and!; try done.
  by rewrite (marker_color_palette r res Hres).
Qed.

Lemma selected_palette_results_are_coloured_witness :
  Forall (λ r, ∃ res c,
            res ∈ ["Goal"; "Saved Shot"] ∧ result r = Some res ∧
            dict_lookup res result_colors = Some c ∧
            marker_color (marker_of r) = Some c)
         (filtered_shots sample_df (selections sample_df 0 goals_and_saves)).
Proof.
  apply (selected_palette_results_are_coloured sample_df
           (selections sample_df 0 goals_and_saves)).
  - discriminate.
  - apply (bool_decide_unpack _). vm_compute. exact I.
Defined.

(** X23. The legend has one entry for each key of [result_colors] that
    occurs in the [result] column of the drawn rows, and no other entry;
    the entries come in the order of the dict. *)
Theorem legend_is_present_palette (shots : DataFrame) :
  (∀ res, res ∈ label <$> handles shots ↔
          res ∈ dict_keys result_colors ∧
          ∃ r, r ∈ shots ∧ result r = Some res) ∧
  NoDup (label <$> handles shots) ∧
  label <$> handles shots `sublist_of` dict_keys result_colors.
Proof.
  split_and!.
  - apply elem_of_handles_labels.
  - apply NoDup_handles_labels.
  - rewrite handles_labels. apply sublist_filter.
Qed.

(** X24. A legend entry shows the colour its markers have: every row
    whose result is the entry's label is drawn in the entry's colour.
    That colour comes from [result_colors]; the 'black' default of the
    [get] is never used. *)
Theorem legend_colors_match_markers (shots : DataFrame) (h : LegendHandle) :
  h ∈ handles shots →
  markerfacecolor h ≠ "black" ∧
  dict_lookup (label h) result_colors = Some (markerfacecolor h) ∧
  ∀ r, result r = Some (label h) →
       marker_color (marker_of r) = Some (markerfacecolor h).
Proof.
  intros Hh. pose proof (handles_color_from_dict shots h Hh) as Hcolor.
  split_and!; [|done|].
  - assert (label h ∈ dict_keys result_colors) as Hkey.
    { apply (elem_of_handles_labels shots), list_elem_of_fmap. eauto. }
    unfold result_colors in Hkey. simpl in Hkey.
    rewrite !elem_of_cons, elem_of_nil in Hkey.
    intros Hblack. rewrite Hblack in Hcolor.
    destruct Hkey as [Hl|[Hl|[Hl|[Hl|[Hl|[Hl|[]]]]]]];
      rewrite Hl in Hcolor; vm_compute in Hcolor; discriminate.
  - intros r Hr. by rewrite (marker_color_palette r (label h) Hr).
Qed.

Lemma legend_colors_match_markers_witness :
  let h := {| label := "Goal"; markerfacecolor := "yellow" |} in
  markerfacecolor h ≠ "black" ∧
  dict_lookup (label h) result_colors = Some (markerfacecolor h) ∧
  ∀ r, result r = Some (label h) →
       marker_color (marker_of r) = Some (markerfacecolor h).
Proof.
  apply (legend_colors_match_markers
           (filtered_shots sample_df (selections sample_df 0 untouched))
           {| label := "Goal"; markerfacecolor := "yellow" |}).
  vm_compute. apply list_elem_of_here.
Defined.

(** X25. With no team restriction (the team selection holds 'All' or is
    empty) and nothing selected in the five other multiselects, the title
    is 'Shot Map for ' followed by the selected league. *)
Theorem unconstrained_title (shots : DataFrame) (sel : Selections) :
  "All" ∈ selected_teams sel ∨ selected_teams sel = [] →
  selected_players sel = [] → selected_games sel = [] →
  selected_situations sel = [] → selected_body_parts sel = [] →
  selected_results sel = [] →
  fig_title (draw shots sel) = "Shot Map for " +:+ selected_league sel.
Proof.
  intros Hteams Hp Hg Hs Hb Hr. simpl. unfold title_parts.
  rewrite Hp, Hg, Hs, Hb, Hr.
  rewrite (decide_False (P := _ ∧ "All" ∉ _)) by tauto.
  by rewrite !decide_False by (by intros []).
Qed.

Lemma unconstrained_title_witness :
  fig_title (draw sample_df (selections sample_df 0 untouched))
  = "Shot Map for ENG-Premier League".
Proof.
  apply (unconstrained_title sample_df (selections sample_df 0 untouched));
    first [reflexivity | left; apply list_elem_of_here].
Defined.

Lemma filtered_by_teams_nil (rows : DataFrame) : filtered_by_teams rows [] = [].
Proof.
  rewrite filtered_by_teams_filter.
  induction rows as [|r rows IH]; [done|].
  rewrite filter_cons_False; [done|].
  intros [Hall|Hin]; [by apply elem_of_nil in Hall | by apply isin_nil in Hin].
Qed.

(** X26. When the team multiselect has been emptied, the page offers no
    player, match, situation, body part or result to choose from, shows
    the count 0 and closes with the no-shots message, whatever else is
    selected. *)
Theorem cleared_teams_page (lib : DrawingLibrary) (df : DataFrame)
    (ui : UserInput) (i : nat) :
  default_league_index df = Some i →
  pick_teams ui = Some [] →
  drop 4 (shown (page lib df ui))
  = [ StMultiselect "Select Player(s)" [] [];
      StMultiselect "Select Match(es)" [] [];
      StMultiselect "Select Situation(s)" [] [];
      StMultiselect "Select Body Part(s)" [] [];
      StMultiselect "Select Result(s)" [] [];
      StSidebarSubheader "Total Shots";
      StSidebarInfo "Number of shots: 0";
      StWrite "No shots match the selected filters." ].
Proof.
  intros Hi Hteams. unfold page. rewrite Hi.
  assert (filtered_shots df (selections df i ui) = []) as Hshots.
  { unfold filtered_shots, unvalidated_shots. simpl.
    rewrite Hteams. simpl. rewrite filtered_by_teams_nil.
    by rewrite !narrow_filter. }
  rewrite Hshots. unfold sidebar. rewrite Hshots. simpl.
  rewrite Hteams. simpl. by rewrite filtered_by_teams_nil.
Qed.

Lemma cleared_teams_page_witness :
  drop 4 (shown (page quiet_library sample_df teams_cleared))
  = [ StMultiselect "Select Player(s)" [] [];
      StMultiselect "Select Match(es)" [] [];
      StMultiselect "Select Situation(s)" [] [];
      StMultiselect "Select Body Part(s)" [] [];
      StMultiselect "Select Result(s)" [] [];
      StSidebarSubheader "Total Shots";
      StSidebarInfo "Number of shots: 0";
      StWrite "No shots match the selected filters." ].
Proof.
  apply (cleared_teams_page quiet_library sample_df teams_cleared 0);
    reflexivity.
Defined.
